(** * Streamlet: the "Beautiful Graph" dashboard script (src/main.py)

    A shallow embedding of the script's recompute cycle.  The script reads
    seven widget values, generates a synthetic dataset with numpy, draws one
    of four chart kinds on a matplotlib axes, and emits the figure and a
    summary panel through streamlit.

    Numbers are IEEE binary64 values (numpy's float64, Python's float),
    embedded as Rocq's primitive floats.  The library routines the script
    calls (numpy, matplotlib, Python's format) are modelled after their
    documented behaviour; sin, cos and the random source are left abstract
    and passed as parameters. *)

From Stdlib Require Import List ZArith Lia Bool String Ascii.
From Stdlib Require Import Floats Uint63 DecimalString.
Import ListNotations.

Set Warnings "-inexact-float".
Open Scope float_scope.
Open Scope string_scope.
Open Scope nat_scope.

(** ** Exceptions *)

Inductive Exception : Type :=
| ValueError (msg : string)
| IndexError (msg : string).

Inductive result (A : Type) : Type :=
| Ok (a : A)
| Raise (e : Exception).
Arguments Ok {A} a.
Arguments Raise {A} e.

Definition rbind {A B : Type} (r : result A) (k : A -> result B) : result B :=
  match r with
  | Ok a => k a
  | Raise e => Raise e
  end.

Notation "x <- r ;; k" := (rbind r (fun x => k))
  (at level 61, r at next level, right associativity).

(** ** Arrays of float64 *)

Definition array : Type := list float.

(** [float(i)] for a non-negative machine integer. *)
Definition of_nat (i : nat) : float :=
  PrimFloat.of_uint63 (Uint63.of_Z (Z.of_nat i)).

(** [np.signbit]. *)
Definition signbit (v : float) : bool := get_sign v.

(** [a[-1] = v] on a one-dimensional array. *)
Fixpoint set_last (a : array) (v : float) : array :=
  match a with
  | [] => []
  | [_] => [v]
  | h :: t => h :: set_last t v
  end.

(** [np.linspace(start, stop, num)] with [endpoint=True]: the samples are
    [arange(num) * step + start] with [step = (stop - start) / (num - 1)],
    and the last one is overwritten with [stop]. *)
Definition linspace (start stop : float) (num : nat) : array :=
  let div := num - 1 in
  let delta := (stop - start)%float in
  let y := map of_nat (seq 0 num) in
  let y :=
    if 0 <? div then
      let step := (delta / of_nat div)%float in
      if (step =? 0)%float
      then map (fun v => (v / of_nat div * delta)%float) y
      else map (fun v => (v * step)%float) y
    else map (fun v => (v * delta)%float) y in
  let y := map (fun v => (v + start)%float) y in
  if 1 <? num then set_last y stop else y.

(** Strict monotonicity, as a check on all pairs: every element is below
    every later one. *)
Fixpoint increasing_all (a : array) : bool :=
  match a with
  | [] => true
  | h :: t => forallb (fun v => (h <? v)%float) t && increasing_all t
  end.

(** The three properties of a sample grid [linspace 0 10 num], as one
    check: strictly increasing, first sample 0, last sample 10. *)
Definition grid_checked (num : nat) : bool :=
  let a := linspace 0 10 num in
  increasing_all a
  && match nth_error a 0 with
     | Some v => PrimFloat.Leibniz.eqb v 0
     | None => false
     end
  && match nth_error a (num - 1) with
     | Some v => PrimFloat.Leibniz.eqb v 10
     | None => false
     end.

(** What it means for [m] to be the maximum (minimum) of an array: an
    element of it that, in an array without NaN, bounds every element. *)
Definition no_nan (a : array) : Prop := Forall (fun v => is_nan v = false) a.

Definition is_max (a : array) (m : float) : Prop :=
  In m a /\ (no_nan a -> Forall (fun v => (v <=? m)%float = true) a).

Definition is_min (a : array) (m : float) : Prop :=
  In m a /\ (no_nan a -> Forall (fun v => (m <=? v)%float = true) a).

(** [a[::step]] on a list: the elements at indices 0, step, 2*step, ...
    [skip] counts the elements still to be passed over before the next one
    that is kept. *)
Fixpoint slice_from {A : Type} (step skip : nat) (a : list A) : list A :=
  match a with
  | [] => []
  | h :: t =>
      match skip with
      | 0 => h :: slice_from step (step - 1) t
      | S k => slice_from step k t
      end
  end.

Definition slice_step {A : Type} (step : nat) (a : list A) : list A :=
  slice_from step 0 a.

(** Elementwise [a + b] of one-dimensional arrays, with numpy's broadcasting
    of a length-one operand; other shape mismatches raise. *)
Fixpoint zip_add (a b : array) : array :=
  match a, b with
  | u :: a', v :: b' => (u + v)%float :: zip_add a' b'
  | _, _ => []
  end.

Definition array_add (a b : array) : result array :=
  if (List.length a =? List.length b)%nat then Ok (zip_add a b)
  else match a, b with
       | [u], _ => Ok (map (fun v => (u + v)%float) b)
       | _, [v] => Ok (map (fun u => (u + v)%float) a)
       | _, _ => Raise (ValueError "operands could not be broadcast together")
       end.

(** [a + c] for a scalar [c]. *)
Definition array_add_scalar (a : array) (c : float) : array :=
  map (fun u => (u + c)%float) a.

(** [np.maximum] and [np.minimum] on two scalars: a NaN operand wins. *)
Definition maximum (u v : float) : float :=
  if (v <=? u)%float || is_nan u then u else v.

Definition minimum (u v : float) : float :=
  if (u <=? v)%float || is_nan u then u else v.

(** [np.max(a)] and [np.min(a)]: the reduction of [np.maximum] (resp.
    [np.minimum]) from the first element; an empty array has no identity. *)
Definition np_max (a : array) : result float :=
  match a with
  | [] => Raise (ValueError "zero-size array to reduction operation maximum which has no identity")
  | h :: t => Ok (fold_left maximum t h)
  end.

Definition np_min (a : array) : result float :=
  match a with
  | [] => Raise (ValueError "zero-size array to reduction operation minimum which has no identity")
  | h :: t => Ok (fold_left minimum t h)
  end.

(** [np.argmax(a)]: the index of the first maximal element; the scan keeps
    the running maximum [mp] and its index, replaces them when the next
    element is not [<= mp], and stops at the first NaN. *)
Fixpoint argmax_scan (t : array) (i : nat) (mp : float) (max_ind : nat) : nat :=
  match t with
  | [] => max_ind
  | v :: t' =>
      if negb (v <=? mp)%float
      then if is_nan v then i else argmax_scan t' (S i) v i
      else argmax_scan t' (S i) mp max_ind
  end.

Definition np_argmax (a : array) : result nat :=
  match a with
  | [] => Raise (ValueError "attempt to get argmax of an empty sequence")
  | h :: t => Ok (if is_nan h then 0 else argmax_scan t 1 h 0)
  end.

(** [a[i]] for a non-negative index. *)
Definition getitem (a : array) (i : nat) : result float :=
  match nth_error a i with
  | Some v => Ok v
  | None => Raise (IndexError "index out of bounds")
  end.

(** ** The random source

    numpy's global legacy [RandomState] is threaded explicitly.  A
    computation reads and advances it, and may raise. *)

Definition M (S A : Type) : Type := S -> result (A * S).

Definition ret {S A : Type} (a : A) : M S A := fun s => Ok (a, s).

Definition bind {S A B : Type} (m : M S A) (k : A -> M S B) : M S B :=
  fun s =>
    match m s with
    | Ok (a, s') => k a s'
    | Raise e => Raise e
    end.

Definition lift {S A : Type} (r : result A) : M S A :=
  fun s =>
    match r with
    | Ok a => Ok (a, s)
    | Raise e => Raise e
    end.

Notation "x <~ m ;; k" := (bind m (fun x => k))
  (at level 61, m at next level, right associativity).

(** [size] successive draws of a primitive sampler. *)
Fixpoint draws {S A : Type} (draw : S -> A * S) (size : nat) (s : S) : list A * S :=
  match size with
  | 0 => ([], s)
  | Datatypes.S k =>
      let (v, s1) := draw s in
      let (vs, s2) := draws draw k s1 in
      (v :: vs, s2)
  end.

(** ** Widget values *)

Record Params : Type := mkParams {
  graph_type : string;
  color_palette : string;
  show_grid : bool;
  show_legend : bool;
  show_annotations : bool;
  num_points : nat;
  noise_level : float
}.

Definition graph_type_options : list string :=
  ["Line Plot"; "Scatter Plot"; "Bar Chart"; "Area Chart"].

Definition color_palette_options : list string :=
  ["deep"; "muted"; "bright"; "pastel"; "dark"; "colorblind"].

(** The widgets' initial values. *)
Definition default_params : Params :=
  {| graph_type := "Line Plot"; color_palette := "deep";
     show_grid := true; show_legend := true; show_annotations := true;
     num_points := 100; noise_level := 0.1 |}.

(** What the sidebar can return: a listed option for each select box, and a
    slider value within its bounds (the noise slider runs from 0.0 to 1.0,
    so its value has a clear sign bit). *)
Definition in_options (v : string) (options : list string) : bool :=
  existsb (String.eqb v) options.

Definition sidebar_ok (p : Params) : bool :=
  in_options (graph_type p) graph_type_options
  && in_options (color_palette p) color_palette_options
  && (10 <=? num_points p) && (num_points p <=? 500)
  && (0 <=? noise_level p)%float && (noise_level p <=? 1)%float
  && negb (signbit (noise_level p)).

Definition with_graph_type (g : string) (p : Params) : Params :=
  {| graph_type := g; color_palette := color_palette p;
     show_grid := show_grid p; show_legend := show_legend p;
     show_annotations := show_annotations p;
     num_points := num_points p; noise_level := noise_level p |}.

(** ** The dataset *)

Record Dataset : Type := mkDataset {
  x : array;
  y1 : array;
  y2 : array;
  categories : list string
}.

Definition with_categories (c : list string) (d : Dataset) : Dataset :=
  {| x := x d; y1 := y1 d; y2 := y2 d; categories := c |}.

(** ** Python's fixed-point formatting

    [format(v, ".{prec}f")] and [format(v, ",.{prec}f")]: the exact binary
    value is rounded to [prec] decimals, ties to even; the sign is the
    value's sign bit; [","] groups the integer digits by three. *)

Definition round_half_even (num den : Z) : Z :=
  let q := (num / den)%Z in
  let r := (num mod den)%Z in
  match (2 * r ?= den)%Z with
  | Lt => q
  | Gt => (q + 1)%Z
  | Eq => if Z.even q then q else (q + 1)%Z
  end.

(** [|v| * 10^prec] rounded to an integer, for [|v| = m * 2^e]. *)
Definition scaled (prec : nat) (m : positive) (e : Z) : Z :=
  let p10 := (10 ^ Z.of_nat prec)%Z in
  if (0 <=? e)%Z then (Zpos m * 2 ^ e * p10)%Z
  else round_half_even (Zpos m * p10) (2 ^ (- e)).

Definition digits_of (n : Z) : list ascii :=
  list_ascii_of_string (NilZero.string_of_uint (N.to_uint (Z.to_N n))).

Definition pad_zeros (width : nat) (ds : list ascii) : list ascii :=
  repeat "0"%char (width - List.length ds) ++ ds.

(** Commas between groups of three digits, counted from the right. *)
Fixpoint group_rev (ds : list ascii) (k : nat) : list ascii :=
  match ds with
  | [] => []
  | c :: t =>
      match t with
      | [] => [c]
      | _ :: _ =>
          match k with
          | 0 => c :: ","%char :: group_rev t 2
          | S k' => c :: group_rev t k'
          end
      end
  end.

Definition group_thousands (ds : list ascii) : list ascii :=
  rev (group_rev (rev ds) 2).

Definition fixed_digits (grouping : bool) (prec : nat) (n : Z) : string :=
  let ds := pad_zeros (S prec) (digits_of n) in
  let k := List.length ds - prec in
  let ip := firstn k ds in
  let fp := skipn k ds in
  let ip := if grouping then group_thousands ip else ip in
  string_of_list_ascii ip
  ++ (if prec =? 0 then "" else "." ++ string_of_list_ascii fp).

Definition format_f (grouping : bool) (prec : nat) (v : float) : string :=
  match Prim2SF v with
  | S754_nan => "nan"
  | S754_infinity s => if s then "-inf" else "inf"
  | S754_zero s => (if s then "-" else "") ++ fixed_digits grouping prec 0
  | S754_finite s m e =>
      (if s then "-" else "") ++ fixed_digits grouping prec (scaled prec m e)
  end.

(** ** The matplotlib figure

    Each drawing call on the axes adds one artist carrying the arguments
    of the call; the remaining calls set properties of the axes. *)

Inductive Artist : Type :=
| Line2D (xs ys : array) (label : string) (linewidth : float)
    (marker : option string) (markevery : option nat)
    (markersize : option float) (linestyle : option string)
| PathCollection (xs ys c : array) (cmap : string) (s alpha : float)
    (label : string)
| Annotation (text : string) (xy xytext : float * float)
    (arrow_facecolor : string) (arrow_shrink : float)
| BarContainer (xs height : array) (width alpha : float) (label : string)
| FillBetween (xs ys : array) (alpha : float) (label : string).

Record Legend : Type := mkLegend {
  legend_loc : string;
  legend_framealpha : float
}.

(** The rc settings the script changes before it creates the figure. *)
Record RcParams : Type := mkRc {
  rc_style : string;
  rc_axes_grid : bool;
  rc_palette : string;
  rc_font_size : nat;
  rc_axes_labelsize : nat;
  rc_axes_titlesize : nat
}.

(** Tick formatters: the default one, and [StrMethodFormatter(fmt)]. *)
Inductive Formatter : Type :=
| ScalarFormatter
| StrMethodFormatter (fmt : string).

Record Axes : Type := mkAxes {
  artists : list Artist;
  title : string;
  title_pad : nat;
  xlabel : string;
  ylabel : string;
  grid_on : bool;
  grid_linestyle : string;
  grid_alpha : float;
  axisbelow : bool;
  y_major_formatter : Formatter;
  legend : option Legend
}.

Record Colorbar : Type := mkColorbar {
  mappable : Artist;
  colorbar_label : string
}.

Record Figure : Type := mkFigure {
  figsize : nat * nat;
  rc : RcParams;
  axes : Axes;
  colorbar : option Colorbar
}.

(** [sns.set_style]: of the two styles the script uses, ["whitegrid"] turns
    the rc default [axes.grid] on and ["white"] turns it off. *)
Definition set_style (style : string) (r : RcParams) : RcParams :=
  {| rc_style := style; rc_axes_grid := String.eqb style "whitegrid";
     rc_palette := rc_palette r; rc_font_size := rc_font_size r;
     rc_axes_labelsize := rc_axes_labelsize r;
     rc_axes_titlesize := rc_axes_titlesize r |}.

Definition set_palette (palette : string) (r : RcParams) : RcParams :=
  {| rc_style := rc_style r; rc_axes_grid := rc_axes_grid r;
     rc_palette := palette; rc_font_size := rc_font_size r;
     rc_axes_labelsize := rc_axes_labelsize r;
     rc_axes_titlesize := rc_axes_titlesize r |}.

Definition set_font_sizes (font label title : nat) (r : RcParams) : RcParams :=
  {| rc_style := rc_style r; rc_axes_grid := rc_axes_grid r;
     rc_palette := rc_palette r; rc_font_size := font;
     rc_axes_labelsize := label; rc_axes_titlesize := title |}.

(** matplotlib's rc defaults for the fields above. *)
Definition rc_defaults : RcParams :=
  {| rc_style := ""; rc_axes_grid := false; rc_palette := "";
     rc_font_size := 10; rc_axes_labelsize := 10; rc_axes_titlesize := 12 |}.

(** The axes [plt.subplots] creates: empty, with the grid as the rc
    default says, solid opaque grid lines, seaborn's [axes.axisbelow]. *)
Definition new_axes (r : RcParams) : Axes :=
  {| artists := []; title := ""; title_pad := 6; xlabel := ""; ylabel := "";
     grid_on := rc_axes_grid r; grid_linestyle := "-"; grid_alpha := 1;
     axisbelow := true; y_major_formatter := ScalarFormatter;
     legend := None |}.

Definition add_artist (a : Artist) (ax : Axes) : Axes :=
  {| artists := artists ax ++ [a]; title := title ax;
     title_pad := title_pad ax; xlabel := xlabel ax; ylabel := ylabel ax;
     grid_on := grid_on ax; grid_linestyle := grid_linestyle ax;
     grid_alpha := grid_alpha ax; axisbelow := axisbelow ax;
     y_major_formatter := y_major_formatter ax; legend := legend ax |}.

Definition set_title (t : string) (pad : nat) (ax : Axes) : Axes :=
  {| artists := artists ax; title := t; title_pad := pad;
     xlabel := xlabel ax; ylabel := ylabel ax;
     grid_on := grid_on ax; grid_linestyle := grid_linestyle ax;
     grid_alpha := grid_alpha ax; axisbelow := axisbelow ax;
     y_major_formatter := y_major_formatter ax; legend := legend ax |}.

Definition set_xlabel (l : string) (ax : Axes) : Axes :=
  {| artists := artists ax; title := title ax; title_pad := title_pad ax;
     xlabel := l; ylabel := ylabel ax;
     grid_on := grid_on ax; grid_linestyle := grid_linestyle ax;
     grid_alpha := grid_alpha ax; axisbelow := axisbelow ax;
     y_major_formatter := y_major_formatter ax; legend := legend ax |}.

Definition set_ylabel (l : string) (ax : Axes) : Axes :=
  {| artists := artists ax; title := title ax; title_pad := title_pad ax;
     xlabel := xlabel ax; ylabel := l;
     grid_on := grid_on ax; grid_linestyle := grid_linestyle ax;
     grid_alpha := grid_alpha ax; axisbelow := axisbelow ax;
     y_major_formatter := y_major_formatter ax; legend := legend ax |}.

(** [ax.grid(visible, linestyle=..., alpha=...)].  matplotlib's [Axis.grid]:
    "If any kwargs are supplied, it is assumed you want the grid on and
    visible will be set to True"; with a false [visible] it warns "First
    parameter to grid() is false, but line properties are supplied. The
    grid will be enabled."  Without line properties [visible] decides. *)
Definition grid (visible : bool) (kwargs : option (string * float))
    (ax : Axes) : Axes :=
  let on := match kwargs with Some _ => true | None => visible end in
  let ls := match kwargs with Some (l, _) => l | None => grid_linestyle ax end in
  let al := match kwargs with Some (_, a) => a | None => grid_alpha ax end in
  {| artists := artists ax; title := title ax; title_pad := title_pad ax;
     xlabel := xlabel ax; ylabel := ylabel ax;
     grid_on := on; grid_linestyle := ls; grid_alpha := al;
     axisbelow := axisbelow ax;
     y_major_formatter := y_major_formatter ax; legend := legend ax |}.

Definition set_axisbelow (b : bool) (ax : Axes) : Axes :=
  {| artists := artists ax; title := title ax; title_pad := title_pad ax;
     xlabel := xlabel ax; ylabel := ylabel ax;
     grid_on := grid_on ax; grid_linestyle := grid_linestyle ax;
     grid_alpha := grid_alpha ax; axisbelow := b;
     y_major_formatter := y_major_formatter ax; legend := legend ax |}.

Definition set_major_formatter (f : Formatter) (ax : Axes) : Axes :=
  {| artists := artists ax; title := title ax; title_pad := title_pad ax;
     xlabel := xlabel ax; ylabel := ylabel ax;
     grid_on := grid_on ax; grid_linestyle := grid_linestyle ax;
     grid_alpha := grid_alpha ax; axisbelow := axisbelow ax;
     y_major_formatter := f; legend := legend ax |}.

Definition set_legend (l : Legend) (ax : Axes) : Axes :=
  {| artists := artists ax; title := title ax; title_pad := title_pad ax;
     xlabel := xlabel ax; ylabel := ylabel ax;
     grid_on := grid_on ax; grid_linestyle := grid_linestyle ax;
     grid_alpha := grid_alpha ax; axisbelow := axisbelow ax;
     y_major_formatter := y_major_formatter ax; legend := Some l |}.

(** The label a [StrMethodFormatter] gives the tick at [v]:
    [fmt.format(x=v)], read here for templates of the shape ["{x:,.Nf}"] and
    ["{x:.Nf}"]. *)
Definition digit_of (c : ascii) : option nat :=
  let n := nat_of_ascii c in
  if (48 <=? n) && (n <=? 57) then Some (n - 48) else None.





(** ** The streamlit page *)

#[local] Set Warnings "-register-all".
Inductive Element : Type :=
| st_title (body : string)
| st_markdown (body : string)
| st_pyplot (fig : Figure)
| st_expander (label : string) (body : list Element)
| st_columns (cols : list (list Element))
| st_metric (label value : string)
| st_write (body : string)
| st_dataframe (cols : list (string * array)).

Definition Page : Type := list Element.

(** ** The script

    [np.sin], [np.cos] and the random source are parameters: [legacy_gauss]
    draws one standard normal deviate, [rk_interval max] one integer of
    [0..max]. *)

Section Script.

Variables np_sin np_cos : float -> float.
Variable RandomState : Type.
Variable legacy_gauss : RandomState -> float * RandomState.
Variable rk_interval : nat -> RandomState -> nat * RandomState.

(** [np.random.normal(loc, scale, size)]: a negative [scale] (sign bit set,
    not NaN) raises; each sample is [loc + scale * legacy_gauss()]. *)
Definition normal (loc scale : float) (size : nat) : M RandomState array :=
  fun s =>
    if negb (is_nan scale) && signbit scale then Raise (ValueError "scale < 0")
    else
      let (g, s') := draws legacy_gauss size s in
      Ok (map (fun z => (loc + scale * z)%float) g, s').

(** [np.random.randint(low, high, size)]. *)
Definition randint (low high size : nat) : M RandomState (list nat) :=
  fun s =>
    if high <=? low then Raise (ValueError "low >= high")
    else
      let (k, s') := draws (rk_interval (high - 1 - low)) size s in
      Ok (map (fun i => low + i) k, s').

(** [np.random.choice(a, size=size)]: uniform, with replacement;
    [a[randint(0, len(a), size)]].  The indices drawn lie below [len(a)],
    so the lookup never leaves the population. *)
Definition choice (a : list string) (size : nat) : M RandomState (list string) :=
  match a with
  | [] =>
      if size =? 0 then ret []
      else lift (Raise (ValueError "'a' cannot be empty unless no samples are taken"))
  | d :: _ =>
      idx <~ randint 0 (List.length a) size ;;
      ret (map (fun i => nth i a d) idx)
  end.

(** Lines 40-43. *)
Definition generate (p : Params) : M RandomState Dataset :=
  let x := linspace 0 10 (num_points p) in
  n1 <~ normal 0 (noise_level p) (num_points p) ;;
  y1 <~ lift (array_add (map np_sin x) n1) ;;
  n2 <~ normal 0 (noise_level p) (num_points p) ;;
  y2 <~ lift (array_add (map np_cos x) n2) ;;
  categories <~ choice ["A"; "B"; "C"] (num_points p) ;;
  ret {| x := x; y1 := y1; y2 := y2; categories := categories |}.

(** Lines 46-50. *)
Definition style (p : Params) : RcParams :=
  set_font_sizes 12 14 16
    (set_palette (color_palette p)
       (set_style (if show_grid p then "whitegrid" else "white") rc_defaults)).

(** The peak annotation of lines 62-64; both tuples evaluate
    [x[np.argmax(y1)]] and [np.max(y1)]. *)
Definition peak_annotation (d : Dataset) : result Artist :=
  k <- np_argmax (y1 d) ;;
  xk <- getitem (x d) k ;;
  m <- np_max (y1 d) ;;
  k' <- np_argmax (y1 d) ;;
  xk' <- getitem (x d) k' ;;
  m' <- np_max (y1 d) ;;
  Ok (Annotation "Peak Value" (xk, m) ((xk' + 1)%float, (m' + 0.5)%float)
        "black" 0.05).

(** Lines 56-70: the branch on [graph_type].  The second component is the
    local [scatter], bound in the scatter branch only. *)
Definition plot (p : Params) (d : Dataset) (ax : Axes)
    : result (Axes * option Artist) :=
  if String.eqb (graph_type p) "Line Plot" then
    let ax := add_artist
      (Line2D (x d) (y1 d) "Sine Wave" 2.5 (Some "o") (Some 5) (Some 6%float) None) ax in
    let ax := add_artist
      (Line2D (x d) (y2 d) "Cosine Wave" 2.5 None None None (Some "--")) ax in
    Ok (ax, None)
  else if String.eqb (graph_type p) "Scatter Plot" then
    let scatter :=
      PathCollection (x d) (y1 d) (y2 d) "viridis" 100 0.7 "Data Points" in
    let ax := add_artist scatter ax in
    if show_annotations p then
      a <- peak_annotation d ;;
      Ok (add_artist a ax, Some scatter)
    else Ok (ax, Some scatter)
  else if String.eqb (graph_type p) "Bar Chart" then
    let ax := add_artist
      (BarContainer (slice_step 10 (x d)) (slice_step 10 (y1 d)) 0.5 0.7
         "Sine Values") ax in
    let ax := add_artist
      (BarContainer (array_add_scalar (slice_step 10 (x d)) 0.5)
         (slice_step 10 (y2 d)) 0.5 0.7 "Cosine Values") ax in
    Ok (ax, None)
  else if String.eqb (graph_type p) "Area Chart" then
    let ax := add_artist (FillBetween (x d) (y1 d) 0.4 "Sine Wave") ax in
    let ax := add_artist (FillBetween (x d) (y2 d) 0.4 "Cosine Wave") ax in
    Ok (ax, None)
  else Ok (ax, None).

(** Lines 73-81. *)
Definition customize (p : Params) (ax : Axes) : Axes :=
  let ax := set_title ("Beautiful " ++ graph_type p) 20 ax in
  let ax := set_xlabel "X Axis" ax in
  let ax := set_ylabel "Y Axis" ax in
  let ax := grid (show_grid p) (Some ("--", 0.6%float)) ax in
  let ax := set_axisbelow true ax in
  let ax := set_major_formatter (StrMethodFormatter "{x:,.1f}") ax in
  if show_legend p
  then set_legend {| legend_loc := "upper right"; legend_framealpha := 1 |} ax
  else ax.

(** Lines 84-86. *)
Definition add_colorbar (p : Params) (scatter : option Artist) : option Colorbar :=
  if String.eqb (graph_type p) "Scatter Plot" then
    match scatter with
    | Some sc => Some {| mappable := sc; colorbar_label := "Cosine Values" |}
    | None => None
    end
  else None.

(** Lines 46-86: the figure. *)
Definition render (p : Params) (d : Dataset) : result Figure :=
  let r := style p in
  let ax := new_axes r in
  drawn <- plot p d ax ;;
  let (ax, scatter) := drawn in
  let ax := customize p ax in
  Ok {| figsize := (10, 6); rc := r; axes := ax;
        colorbar := add_colorbar p scatter |}.

(** Lines 92-106: the summary panel. *)
Definition summary (d : Dataset) : result Element :=
  max1 <- np_max (y1 d) ;;
  min1 <- np_min (y1 d) ;;
  max2 <- np_max (y2 d) ;;
  min2 <- np_min (y2 d) ;;
  Ok (st_expander "Show Data Summary"
        [ st_columns
            [ [ st_metric "Max Sine Value" (format_f false 2 max1);
                st_metric "Min Sine Value" (format_f false 2 min1) ];
              [ st_metric "Max Cosine Value" (format_f false 2 max2);
                st_metric "Min Cosine Value" (format_f false 2 min2) ] ];
          st_write "Sample Data Points:";
          st_dataframe
            [ ("X Values", firstn 5 (x d));
              ("Sine Values", firstn 5 (y1 d));
              ("Cosine Values", firstn 5 (y2 d)) ] ]).

Definition intro_text : string :=
  "
This app demonstrates how to create beautiful, interactive graphs in Streamlit using Matplotlib and Seaborn.
Customize the graph using the options in the sidebar!
".

Definition tips_text : string :=
  "
### Tips for Beautiful Streamlit Graphs:
1. Use consistent color palettes
2. Add proper labels and titles
3. Include interactive controls
4. Show data summaries
5. Use appropriate chart types for your data
".

(** One recompute cycle: the main panel for the widget values [p] that the
    sidebar returned (lines 11-15 and 39-116). *)
Definition main (p : Params) : M RandomState Page :=
  d <~ generate p ;;
  fig <~ lift (render p d) ;;
  panel <~ lift (summary d) ;;
  ret [ st_title "📊 Beautiful Graph in Streamlit";
        st_markdown intro_text;
        st_pyplot fig;
        panel;
        st_markdown tips_text ].

End Script.

(** ** A concrete instance

    A series evaluation of sine and cosine and a cyclic tape of deviates
    stand in for the library's, so that the script can be run. *)

Module Instance.

Fixpoint series (k : nat) (i : nat) (term acc v2 : float) : float :=
  match k with
  | 0 => acc
  | S k' =>
      let term' := (- term * v2 / (of_nat (i + 1) * of_nat (i + 2)))%float in
      series k' (i + 2) term' (acc + term')%float v2
  end.

Definition sin (v : float) : float := series 40 1 v v (v * v)%float.
Definition cos (v : float) : float := series 40 0 1 1 (v * v)%float.

Definition tape : list float :=
  [0.3; -1.1; 0.8; -0.2; 1.7; -0.6; 0.05; -2.4]%float.

Definition RandomState : Type := nat.

Definition legacy_gauss (s : RandomState) : float * RandomState :=
  (nth (s mod 8) tape 0%float, S s).

Definition rk_interval (max : nat) (s : RandomState) : nat * RandomState :=
  ((7 * s + 3) mod (S max), S s).

Definition run (p : Params) (seed : RandomState) : result (Page * RandomState) :=
  main sin cos RandomState legacy_gauss rk_interval p seed.

Definition dataset (p : Params) (seed : RandomState)
    : result (Dataset * RandomState) :=
  generate sin cos RandomState legacy_gauss rk_interval p seed.

End Instance.

(** ** Reading a page *)

(** The figure passed to [st.pyplot]. *)
Fixpoint page_figure (page : Page) : option Figure :=
  match page with
  | [] => None
  | st_pyplot fig :: _ => Some fig
  | _ :: rest => page_figure rest
  end.

(** What the common post-processing sets on the axes, apart from the
    title: padding, axis labels, grid, tick formatter and legend. *)
Definition decorations (ax : Axes)
    : nat * string * string * (bool * string * float) * bool * Formatter
      * option Legend :=
  (title_pad ax, xlabel ax, ylabel ax,
   (grid_on ax, grid_linestyle ax, grid_alpha ax),
   axisbelow ax, y_major_formatter ax, legend ax).

(** The metrics shown, as (label, value) pairs in display order. *)
Fixpoint metrics (e : Element) : list (string * string) :=
  match e with
  | st_metric l v => [(l, v)]
  | st_expander _ body => flat_map metrics body
  | st_columns cols => flat_map (flat_map metrics) cols
  | _ => []
  end.

Definition page_metrics (page : Page) : list (string * string) :=
  flat_map metrics page.

(** The tables shown, each as its list of (column name, column) pairs. *)
Fixpoint dataframes (e : Element) : list (list (string * array)) :=
  match e with
  | st_dataframe cols => [cols]
  | st_expander _ body => flat_map dataframes body
  | st_columns cols => flat_map (flat_map dataframes) cols
  | _ => []
  end.

Definition page_dataframes (page : Page) : list (list (string * array)) :=
  flat_map dataframes page.

(** A character is a decimal digit. *)
Definition is_digit (c : ascii) : Prop := digit_of c <> None.

(** The page of a run, without the final state of the random source. *)
Definition outcome {S A : Type} (r : result (A * S)) : result A :=
  match r with
  | Ok (a, _) => Ok a
  | Raise e => Raise e
  end.

(** ** Results on arrays *)

Lemma draws_length {S A : Type} (draw : S -> A * S) (size : nat) (s : S) :
  List.length (fst (draws draw size s)) = size.
Proof.
  revert s; induction size as [|k IH]; intros s; simpl; [reflexivity|].
  destruct (draw s) as [v s1]. specialize (IH s1).
  destruct (draws draw k s1) as [vs s2]. simpl in *. now rewrite IH.
Qed.

Lemma set_last_length (a : array) (v : float) :
  List.length (set_last a v) = List.length a.
Proof.
  induction a as [|h t IH]; simpl; [reflexivity|].
  destruct t; simpl in *; [reflexivity | now rewrite IH].
Qed.

Lemma linspace_length (start stop : float) (num : nat) :
  List.length (linspace start stop num) = num.
Proof.
  unfold linspace.
  destruct (1 <? num); [rewrite set_last_length|];
    destruct (0 <? num - 1); try destruct (_ =? 0)%float;
    now rewrite !length_map, length_seq.
Qed.

Lemma zip_add_length (a b : array) :
  List.length a = List.length b -> List.length (zip_add a b) = List.length a.
Proof.
  revert b; induction a as [|u a IH]; intros [|v b] H; simpl in *;
    try discriminate; [reflexivity|].
  now rewrite IH by congruence.
Qed.

Lemma array_add_same_length (a b : array) :
  List.length a = List.length b -> array_add a b = Ok (zip_add a b).
Proof.
  intros H. unfold array_add. now rewrite H, Nat.eqb_refl.
Qed.

(** *** Strided slices *)

Lemma slice_from_length {A : Type} (step skip : nat) (a : list A) :
  0 < step -> skip < step ->
  List.length (slice_from step skip a) = (List.length a + (step - 1 - skip)) / step.
Proof.
  intros Hstep. revert skip.
  induction a as [|h t IH]; intros skip Hskip; simpl.
  - symmetry. apply Nat.div_small. lia.
  - destruct skip as [|k].
    + change (List.length (h :: slice_from step (step - 1) t))
        with (S (List.length (slice_from step (step - 1) t))).
      rewrite IH by lia.
      replace (S (List.length t + (step - 1 - 0)))
        with (List.length t + (step - 1 - (step - 1)) + 1 * step) by lia.
      rewrite Nat.div_add by lia. lia.
    + rewrite IH by lia. f_equal. lia.
Qed.

Lemma slice_step_length {A : Type} (step : nat) (a : list A) :
  0 < step ->
  List.length (slice_step step a) = (List.length a + (step - 1)) / step.
Proof.
  intros H. unfold slice_step. rewrite slice_from_length by lia.
  f_equal. lia.
Qed.

Lemma slice_from_nth {A : Type} (step skip : nat) (a : list A) (k : nat) :
  0 < step -> skip < step ->
  nth_error (slice_from step skip a) k = nth_error a (skip + step * k).
Proof.
  intros Hstep. revert skip k.
  induction a as [|h t IH]; intros skip k Hskip; simpl.
  - now rewrite !nth_error_nil.
  - destruct skip as [|j].
    + destruct k as [|k]; simpl.
      * now rewrite Nat.mul_0_r.
      * rewrite IH by lia.
        replace (step * S k) with (S (step - 1 + step * k)) by lia.
        reflexivity.
    + rewrite IH by lia. reflexivity.
Qed.

Lemma slice_step_nth {A : Type} (step : nat) (a : list A) (k : nat) :
  0 < step -> nth_error (slice_step step a) k = nth_error a (step * k).
Proof. intros H. unfold slice_step. now rewrite slice_from_nth by lia. Qed.

(** ** Results on binary64 values

    The comparisons and the two additions used below, read off the
    specification of the primitive operations. *)

Ltac cmp_cases :=
  repeat match goal with
  | |- context [Pos.compare_cont Eq ?a ?b] =>
      change (Pos.compare_cont Eq a b) with (Pos.compare a b)
  | H : context [Pos.compare_cont Eq ?a ?b] |- _ =>
      change (Pos.compare_cont Eq a b) with (Pos.compare a b) in H
  end;
  repeat match goal with
  | |- context [Z.compare ?a ?b] => destruct (Z.compare_spec a b); simpl
  | H : context [Z.compare ?a ?b] |- _ =>
      destruct (Z.compare_spec a b); simpl in H
  | |- context [Pos.compare ?a ?b] => destruct (Pos.compare_spec a b); simpl
  | H : context [Pos.compare ?a ?b] |- _ =>
      destruct (Pos.compare_spec a b); simpl in H
  end;
  try reflexivity; try discriminate; try lia.

Lemma SFcompare_refl (f : spec_float) :
  f <> S754_nan -> SFcompare f f = Some Eq.
Proof.
  destruct f as [s|s| |s m e]; intros H; simpl; try congruence.
  - now destruct s.
  - rewrite Z.compare_refl.
    destruct s; rewrite ?Pos.compare_cont_refl; reflexivity.
Qed.

Lemma SFleb_total (f g : spec_float) :
  f <> S754_nan -> g <> S754_nan -> SFleb f g = false -> SFleb g f = true.
Proof.
  unfold SFleb.
  destruct f as [s|s| |s m e], g as [s'|s'| |s' m' e']; intros Hf Hg;
    try congruence; simpl; try destruct s; try destruct s'; simpl;
    try congruence; intros H; cmp_cases.
Qed.

Lemma SFleb_trans (f g h : spec_float) :
  SFleb f g = true -> SFleb g h = true -> SFleb f h = true.
Proof.
  unfold SFleb.
  destruct f as [s|s| |s m e], g as [s'|s'| |s' m' e'],
    h as [s''|s''| |s'' m'' e''];
    simpl; try destruct s; try destruct s'; try destruct s''; simpl;
    try congruence; intros H1 H2; cmp_cases.
Qed.

Lemma is_nan_SF (v : float) : is_nan v = false -> Prim2SF v <> S754_nan.
Proof.
  unfold is_nan. rewrite FloatAxioms.eqb_spec. intros H E.
  rewrite E in H. discriminate.
Qed.

Lemma is_finite_SF (v : float) :
  is_finite v = true ->
  match Prim2SF v with
  | S754_zero _ | S754_finite _ _ _ => True
  | _ => False
  end.
Proof.
  unfold is_finite, is_nan, is_infinity.
  rewrite !FloatAxioms.eqb_spec, FloatAxioms.abs_spec.
  destruct (Prim2SF v) as [s|s| |s m e]; try (intros; exact I).
  - destruct s; vm_compute; discriminate.
  - vm_compute; discriminate.
Qed.

Lemma leb_refl (u : float) : is_nan u = false -> (u <=? u)%float = true.
Proof.
  intros H. apply is_nan_SF in H. rewrite FloatAxioms.leb_spec.
  unfold SFleb. now rewrite SFcompare_refl.
Qed.

Lemma leb_total (u v : float) :
  is_nan u = false -> is_nan v = false ->
  (u <=? v)%float = false -> (v <=? u)%float = true.
Proof.
  rewrite !FloatAxioms.leb_spec. intros Hu Hv.
  apply SFleb_total; now apply is_nan_SF.
Qed.

Lemma leb_trans (u v w : float) :
  (u <=? v)%float = true -> (v <=? w)%float = true -> (u <=? w)%float = true.
Proof. rewrite !FloatAxioms.leb_spec. apply SFleb_trans. Qed.

(** The noise term at noise level 0: [0 + 0 * z] is [+0] for every finite
    deviate [z]. *)
Lemma zero_scale_noise (z : float) :
  is_finite z = true -> (0 + 0 * z)%float = 0%float.
Proof.
  intros H. apply is_finite_SF in H. apply Prim2SF_inj.
  rewrite FloatAxioms.add_spec, FloatAxioms.mul_spec.
  destruct (Prim2SF z) as [s|s| |s m e]; try contradiction;
    destruct s; reflexivity.
Qed.

(** Adding [+0] gives back a value that compares equal. *)
Lemma add_zero_eqb (v : float) :
  is_nan v = false -> (v + 0 =? v)%float = true.
Proof.
  intros H. apply is_nan_SF in H.
  rewrite FloatAxioms.eqb_spec, FloatAxioms.add_spec.
  destruct (Prim2SF v) as [s|s| |s m e] eqn:E; try congruence.
  - destruct s; reflexivity.
  - destruct s; reflexivity.
  - change (SF64add (S754_finite s m e) (Prim2SF 0)) with (S754_finite s m e).
    unfold SFeqb. rewrite SFcompare_refl; congruence.
Qed.

(** ** Results on [np.max], [np.min] and [np.argmax] *)

Lemma fold_maximum_nan (t : array) (u : float) :
  is_nan u = true -> fold_left maximum t u = u.
Proof.
  revert u; induction t as [|v t IH]; intros u H; simpl; [reflexivity|].
  unfold maximum at 2. rewrite H, orb_true_r. now apply IH.
Qed.

Lemma fold_maximum_In (t : array) (h : float) :
  In (fold_left maximum t h) (h :: t).
Proof.
  revert h; induction t as [|v t IH]; intros h; simpl; [now left|].
  assert (Hc : maximum h v = h \/ maximum h v = v)
    by (unfold maximum; destruct ((v <=? h)%float || is_nan h); auto).
  destruct (IH (maximum h v)) as [E|E]; [|tauto].
  destruct Hc as [Hc|Hc]; rewrite <- E, Hc; tauto.
Qed.

Lemma fold_minimum_In (t : array) (h : float) :
  In (fold_left minimum t h) (h :: t).
Proof.
  revert h; induction t as [|v t IH]; intros h; simpl; [now left|].
  assert (Hc : minimum h v = h \/ minimum h v = v)
    by (unfold minimum; destruct ((h <=? v)%float || is_nan h); auto).
  destruct (IH (minimum h v)) as [E|E]; [|tauto].
  destruct Hc as [Hc|Hc]; rewrite <- E, Hc; tauto.
Qed.

Lemma fold_maximum_upper (t : array) (h : float) :
  is_nan h = false -> no_nan t ->
  (h <=? fold_left maximum t h)%float = true
  /\ Forall (fun v => (v <=? fold_left maximum t h)%float = true) t.
Proof.
  revert h; induction t as [|v t IH]; intros h Hh Ht; simpl.
  - split; [now apply leb_refl | constructor].
  - inversion Ht as [|? ? Hv Ht']; subst.
    assert (Hm : is_nan (maximum h v) = false
                 /\ (h <=? maximum h v)%float = true
                 /\ (v <=? maximum h v)%float = true).
    { unfold maximum. rewrite Hh, orb_false_r.
      destruct (v <=? h)%float eqn:E.
      - repeat split; auto using leb_refl.
      - repeat split; auto using leb_refl, leb_total. }
    destruct Hm as (Hn & Hle1 & Hle2).
    destruct (IH (maximum h v) Hn Ht') as [H1 H2].
    split; [eauto using leb_trans|].
    constructor; eauto using leb_trans.
Qed.

Lemma fold_minimum_lower (t : array) (h : float) :
  is_nan h = false -> no_nan t ->
  (fold_left minimum t h <=? h)%float = true
  /\ Forall (fun v => (fold_left minimum t h <=? v)%float = true) t.
Proof.
  revert h; induction t as [|v t IH]; intros h Hh Ht; simpl.
  - split; [now apply leb_refl | constructor].
  - inversion Ht as [|? ? Hv Ht']; subst.
    assert (Hm : is_nan (minimum h v) = false
                 /\ (minimum h v <=? h)%float = true
                 /\ (minimum h v <=? v)%float = true).
    { unfold minimum. rewrite Hh, orb_false_r.
      destruct (h <=? v)%float eqn:E.
      - repeat split; auto using leb_refl.
      - repeat split; auto using leb_refl, leb_total. }
    destruct Hm as (Hn & Hle1 & Hle2).
    destruct (IH (minimum h v) Hn Ht') as [H1 H2].
    split; [eauto using leb_trans|].
    constructor; eauto using leb_trans.
Qed.

(** [np.max] returns an element of the array that, when the array holds no
    NaN, is above every element; dually for [np.min]. *)
Lemma np_max_spec (a : array) (m : float) :
  np_max a = Ok m -> is_max a m.
Proof.
  unfold is_max.
  destruct a as [|h t]; simpl; intros H; inversion H; subst; clear H.
  split; [apply fold_maximum_In|].
  intros Hn. inversion Hn as [|? ? Hh Ht]; subst.
  destruct (fold_maximum_upper t h Hh Ht) as [H1 H2]. now constructor.
Qed.

Lemma np_min_spec (a : array) (m : float) :
  np_min a = Ok m -> is_min a m.
Proof.
  unfold is_min.
  destruct a as [|h t]; simpl; intros H; inversion H; subst; clear H.
  split; [apply fold_minimum_In|].
  intros Hn. inversion Hn as [|? ? Hh Ht]; subst.
  destruct (fold_minimum_lower t h Hh Ht) as [H1 H2]. now constructor.
Qed.

Lemma np_max_nonempty (a : array) :
  a <> [] -> exists m, np_max a = Ok m.
Proof. destruct a; [congruence | simpl; eauto]. Qed.

Lemma np_min_nonempty (a : array) :
  a <> [] -> exists m, np_min a = Ok m.
Proof. destruct a; [congruence | simpl; eauto]. Qed.

Lemma argmax_scan_spec (t pre : array) (mp : float) (max_ind : nat) :
  is_nan mp = false ->
  nth_error (pre ++ t) max_ind = Some mp ->
  nth_error (pre ++ t) (argmax_scan t (List.length pre) mp max_ind)
  = Some (fold_left maximum t mp).
Proof.
  revert pre mp max_ind.
  induction t as [|v t IH]; intros pre mp max_ind Hmp Hnth; simpl;
    [assumption|].
  assert (Hv : nth_error (pre ++ v :: t) (List.length pre) = Some v).
  { rewrite nth_error_app2 by lia. now rewrite Nat.sub_diag. }
  assert (Happ : (pre ++ v :: t = (pre ++ [v]) ++ t)%list)
    by now rewrite <- app_assoc.
  assert (Hlen : S (List.length pre) = List.length (pre ++ [v])%list)
    by (rewrite length_app; simpl; lia).
  unfold maximum at 2. rewrite Hmp, orb_false_r.
  destruct (v <=? mp)%float; simpl.
  - rewrite Happ, Hlen. apply IH; [assumption | now rewrite <- Happ].
  - destruct (is_nan v) eqn:En.
    + now rewrite fold_maximum_nan.
    + rewrite Happ, Hlen. apply IH; [assumption | now rewrite <- Happ].
Qed.

(** [np.argmax] returns an index at which the array holds [np.max]. *)
Lemma np_argmax_spec (a : array) :
  a <> [] ->
  exists k m, np_argmax a = Ok k /\ np_max a = Ok m /\ nth_error a k = Some m.
Proof.
  destruct a as [|h t]; [congruence|]. intros _. simpl.
  destruct (is_nan h) eqn:En.
  - exists 0, (fold_left maximum t h). repeat split.
    simpl. now rewrite fold_maximum_nan.
  - exists (argmax_scan t 1 h 0), (fold_left maximum t h). repeat split.
    apply (argmax_scan_spec t [h] h 0); auto.
Qed.

(** ** Results on the script *)

Section ScriptFacts.

Variables np_sin np_cos : float -> float.
Variable RandomState : Type.
Variable legacy_gauss : RandomState -> float * RandomState.
Variable rk_interval : nat -> RandomState -> nat * RandomState.

Local Abbreviation generate' :=
  (generate np_sin np_cos RandomState legacy_gauss rk_interval).
Local Abbreviation main' :=
  (main np_sin np_cos RandomState legacy_gauss rk_interval).

Lemma draws_Forall {S A : Type} (P : A -> Prop) (draw : S -> A * S) :
  (forall s, P (fst (draw s))) ->
  forall size s, Forall P (fst (draws draw size s)).
Proof.
  intros H size; induction size as [|k IH]; intros s; simpl; [constructor|].
  specialize (H s). destruct (draw s) as [v s1]. specialize (IH s1).
  destruct (draws draw k s1) as [vs s2]. simpl in *. now constructor.
Qed.

Lemma normal_ok (loc scale : float) (size : nat) (s : RandomState) :
  negb (is_nan scale) && signbit scale = false ->
  normal RandomState legacy_gauss loc scale size s
  = Ok (map (fun z => (loc + scale * z)%float)
          (fst (draws legacy_gauss size s)),
        snd (draws legacy_gauss size s)).
Proof.
  intros H. unfold normal. rewrite H.
  now destruct (draws legacy_gauss size s).
Qed.

Lemma normal_raises (loc scale : float) (size : nat) (s : RandomState) :
  negb (is_nan scale) && signbit scale = true ->
  normal RandomState legacy_gauss loc scale size s
  = Raise (ValueError "scale < 0").
Proof. intros H. unfold normal. now rewrite H. Qed.

(** The dataset a run generates, in closed form. *)
Lemma generate_closed (p : Params) (s : RandomState) :
  negb (is_nan (noise_level p)) && signbit (noise_level p) = false ->
  let n := num_points p in
  let g1 := draws legacy_gauss n s in
  let g2 := draws legacy_gauss n (snd g1) in
  let c := draws (rk_interval 2) n (snd g2) in
  let noise := map (fun z => (0 + noise_level p * z)%float) in
  generate' p s
  = Ok ({| x := linspace 0 10 n;
           y1 := zip_add (map np_sin (linspace 0 10 n)) (noise (fst g1));
           y2 := zip_add (map np_cos (linspace 0 10 n)) (noise (fst g2));
           categories :=
             map (fun i => nth i ["A"; "B"; "C"] "A")
               (map (fun i => 0 + i) (fst c)) |},
        snd c).
Proof.
  intros Hs n g1 g2 c noise.
  assert (H1 : List.length (fst g1) = n) by apply draws_length.
  assert (H2 : List.length (fst g2) = n) by apply draws_length.
  unfold generate, bind, lift. fold n.
  rewrite normal_ok by assumption. fold g1.
  rewrite array_add_same_length
    by now rewrite !length_map, linspace_length, H1.
  rewrite normal_ok by assumption. fold g2.
  rewrite array_add_same_length
    by now rewrite !length_map, linspace_length, H2.
  unfold choice, bind, randint, ret. simpl.
  fold c. now destruct c.
Qed.

(** The script generates a dataset whenever the noise level has a clear
    sign bit, as every value of the slider has. *)
Lemma generate_ok (p : Params) (s : RandomState) :
  signbit (noise_level p) = false ->
  exists d s', generate' p s = Ok (d, s').
Proof.
  intros H. rewrite generate_closed by (rewrite H; apply andb_false_r).
  eauto.
Qed.

Lemma generate_raises (p : Params) (s : RandomState) :
  negb (is_nan (noise_level p)) && signbit (noise_level p) = true ->
  generate' p s = Raise (ValueError "scale < 0").
Proof.
  intros H. unfold generate, bind.
  now rewrite normal_raises.
Qed.

(** The lengths of a generated dataset. *)
Lemma generate_lengths (p : Params) (s s' : RandomState) (d : Dataset) :
  generate' p s = Ok (d, s') ->
  List.length (x d) = num_points p
  /\ List.length (y1 d) = num_points p
  /\ List.length (y2 d) = num_points p
  /\ List.length (categories d) = num_points p.
Proof.
  intros H.
  destruct (negb (is_nan (noise_level p)) && signbit (noise_level p)) eqn:Hs.
  - rewrite generate_raises in H by assumption. discriminate.
  - rewrite generate_closed in H by assumption.
    inversion H; subst; clear H. simpl.
    rewrite !zip_add_length, !length_map, ?linspace_length, ?draws_length;
      try now rewrite !length_map, linspace_length, draws_length.
    auto.
Qed.

Lemma nonempty_length {A : Type} (a : list A) : 1 <= List.length a -> a <> [].
Proof. destruct a; simpl; [lia | congruence]. Qed.

(** The peak annotation: it points at [(x[k], y1[k])] for [k] the index
    [np.argmax] returns, where [y1[k]] is [np.max(y1)]. *)
Lemma peak_annotation_ok (d : Dataset) :
  y1 d <> [] -> List.length (x d) = List.length (y1 d) ->
  exists k xk m,
    np_argmax (y1 d) = Ok k /\ np_max (y1 d) = Ok m
    /\ nth_error (x d) k = Some xk /\ nth_error (y1 d) k = Some m
    /\ peak_annotation d
       = Ok (Annotation "Peak Value" (xk, m)
               ((xk + 1)%float, (m + 0.5)%float) "black" 0.05).
Proof.
  intros Hne Hlen.
  destruct (np_argmax_spec (y1 d) Hne) as (k & m & Hk & Hm & Hn).
  assert (Hlt : k < List.length (x d)).
  { rewrite Hlen. apply nth_error_Some. congruence. }
  destruct (nth_error (x d) k) as [xk|] eqn:E;
    [|apply nth_error_None in E; lia].
  exists k, xk, m. repeat split; auto.
  unfold peak_annotation, getitem, rbind. now rewrite Hk, E, Hm.
Qed.

Lemma customize_artists (p : Params) (ax : Axes) :
  artists (customize p ax) = artists ax.
Proof. unfold customize. now destruct (show_legend p). Qed.

Lemma plot_ok (p : Params) (d : Dataset) (ax : Axes) :
  y1 d <> [] -> List.length (x d) = List.length (y1 d) ->
  exists ax' scatter, plot p d ax = Ok (ax', scatter).
Proof.
  intros Hne Hlen. unfold plot.
  destruct (String.eqb (graph_type p) "Line Plot"); [eauto|].
  destruct (String.eqb (graph_type p) "Scatter Plot").
  - destruct (show_annotations p); [|eauto].
    destruct (peak_annotation_ok d Hne Hlen) as (k & xk & m & _ & _ & _ & _ & E).
    rewrite E. simpl. eauto.
  - destruct (String.eqb (graph_type p) "Bar Chart"); [eauto|].
    destruct (String.eqb (graph_type p) "Area Chart"); eauto.
Qed.

Lemma render_closed (p : Params) (d : Dataset) (ax : Axes)
    (scatter : option Artist) :
  plot p d (new_axes (style p)) = Ok (ax, scatter) ->
  render p d
  = Ok {| figsize := (10, 6); rc := style p; axes := customize p ax;
          colorbar := add_colorbar p scatter |}.
Proof. intros H. unfold render, rbind. now rewrite H. Qed.

Lemma summary_closed (d : Dataset) (max1 min1 max2 min2 : float) :
  np_max (y1 d) = Ok max1 -> np_min (y1 d) = Ok min1 ->
  np_max (y2 d) = Ok max2 -> np_min (y2 d) = Ok min2 ->
  summary d
  = Ok (st_expander "Show Data Summary"
          [ st_columns
              [ [ st_metric "Max Sine Value" (format_f false 2 max1);
                  st_metric "Min Sine Value" (format_f false 2 min1) ];
                [ st_metric "Max Cosine Value" (format_f false 2 max2);
                  st_metric "Min Cosine Value" (format_f false 2 min2) ] ];
            st_write "Sample Data Points:";
            st_dataframe
              [ ("X Values", firstn 5 (x d));
                ("Sine Values", firstn 5 (y1 d));
                ("Cosine Values", firstn 5 (y2 d)) ] ]).
Proof.
  intros H1 H2 H3 H4. unfold summary, rbind. now rewrite H1, H2, H3, H4.
Qed.

Lemma main_closed (p : Params) (s s' : RandomState) (d : Dataset)
    (fig : Figure) (panel : Element) :
  generate' p s = Ok (d, s') -> render p d = Ok fig -> summary d = Ok panel ->
  main' p s
  = Ok ([ st_title "📊 Beautiful Graph in Streamlit";
          st_markdown intro_text;
          st_pyplot fig;
          panel;
          st_markdown tips_text ], s').
Proof.
  intros Hg Hr Hs. unfold main, bind, lift, ret.
  now rewrite Hg, Hr, Hs.
Qed.

(** A run over a non-empty dataset returns a page: the figure and the
    summary panel are both produced. *)
Lemma main_of_dataset (p : Params) (s s' : RandomState) (d : Dataset) :
  generate' p s = Ok (d, s') -> 1 <= num_points p ->
  exists ax scatter max1 min1 max2 min2,
    plot p d (new_axes (style p)) = Ok (ax, scatter)
    /\ np_max (y1 d) = Ok max1 /\ np_min (y1 d) = Ok min1
    /\ np_max (y2 d) = Ok max2 /\ np_min (y2 d) = Ok min2
    /\ main' p s
       = Ok ([ st_title "📊 Beautiful Graph in Streamlit";
               st_markdown intro_text;
               st_pyplot
                 {| figsize := (10, 6); rc := style p;
                    axes := customize p ax;
                    colorbar := add_colorbar p scatter |};
               st_expander "Show Data Summary"
                 [ st_columns
                     [ [ st_metric "Max Sine Value" (format_f false 2 max1);
                         st_metric "Min Sine Value" (format_f false 2 min1) ];
                       [ st_metric "Max Cosine Value" (format_f false 2 max2);
                         st_metric "Min Cosine Value" (format_f false 2 min2) ] ];
                   st_write "Sample Data Points:";
                   st_dataframe
                     [ ("X Values", firstn 5 (x d));
                       ("Sine Values", firstn 5 (y1 d));
                       ("Cosine Values", firstn 5 (y2 d)) ] ];
               st_markdown tips_text ], s').
Proof.
  intros Hg Hn.
  destruct (generate_lengths p s s' d Hg) as (Lx & L1 & L2 & _).
  assert (N1 : y1 d <> []) by (apply nonempty_length; lia).
  assert (N2 : y2 d <> []) by (apply nonempty_length; lia).
  destruct (plot_ok p d (new_axes (style p)) N1) as (ax & sc & Hp);
    [congruence|].
  destruct (np_max_nonempty _ N1) as [max1 H1].
  destruct (np_min_nonempty _ N1) as [min1 H2].
  destruct (np_max_nonempty _ N2) as [max2 H3].
  destruct (np_min_nonempty _ N2) as [min2 H4].
  exists ax, sc, max1, min1, max2, min2. repeat split; auto.
  apply (main_closed p s s' d); auto using render_closed, summary_closed.
Qed.

(** *** The dataset does not depend on the graph type *)

Lemma plot_frame (p : Params) (d : Dataset) (ax ax' : Axes)
    (scatter : option Artist) :
  plot p d ax = Ok (ax', scatter) ->
  title ax' = title ax /\ decorations ax' = decorations ax.
Proof.
  unfold plot. intros H.
  destruct (String.eqb (graph_type p) "Line Plot");
    [inversion H; now subst|].
  destruct (String.eqb (graph_type p) "Scatter Plot").
  - destruct (show_annotations p); [|inversion H; now subst].
    destruct (peak_annotation d); simpl in H; [|discriminate].
    inversion H; now subst.
  - destruct (String.eqb (graph_type p) "Bar Chart");
      [inversion H; now subst|].
    destruct (String.eqb (graph_type p) "Area Chart"); inversion H; now subst.
Qed.

Lemma customize_decorations (p : Params) (ax : Axes) :
  decorations (customize p ax)
  = (20, "X Axis", "Y Axis", (true, "--", 0.6%float), true,
     StrMethodFormatter "{x:,.1f}",
     if show_legend p
     then Some {| legend_loc := "upper right"; legend_framealpha := 1 |}
     else legend ax).
Proof. unfold customize. now destruct (show_legend p). Qed.

Lemma render_inv (p : Params) (d : Dataset) (fig : Figure) :
  render p d = Ok fig ->
  exists ax scatter,
    plot p d (new_axes (style p)) = Ok (ax, scatter)
    /\ fig = {| figsize := (10, 6); rc := style p; axes := customize p ax;
                colorbar := add_colorbar p scatter |}.
Proof.
  unfold render, rbind. intros H.
  destruct (plot p d (new_axes (style p))) as [[ax sc]|e]; [|discriminate].
  inversion H. eauto.
Qed.

Lemma main_inv (p : Params) (s s' : RandomState) (page : Page) :
  main' p s = Ok (page, s') ->
  exists d fig panel,
    generate' p s = Ok (d, s') /\ render p d = Ok fig /\ summary d = Ok panel
    /\ page = [ st_title "📊 Beautiful Graph in Streamlit";
                st_markdown intro_text;
                st_pyplot fig;
                panel;
                st_markdown tips_text ].
Proof.
  unfold main, bind, lift, ret. intros H.
  destruct (generate' p s) as [[d s1]|e]; [|discriminate].
  destruct (render p d) as [fig|e] eqn:Hr; [|discriminate].
  destruct (summary d) as [panel|e] eqn:Hs; [|discriminate].
  inversion H; subst. exists d, fig, panel. auto.
Qed.

(** C1.  With every other widget value and the state of the random source
    fixed, recomputing under another graph type generates the same dataset
    (the same x, y1 and y2 arrays, and the same categories) and leaves the
    random source in the same state: generation never reads [graph_type].
    Only the branch of [plot] depends on it: when both recomputes return a
    page, the two pages show the same metrics, and the two figures have
    the same size, rc settings, labels, grid, tick formatter and legend
    (the title names the graph type). *)
Theorem graph_type_keeps_dataset (p : Params) (g : string) (s : RandomState) :
  generate' (with_graph_type g p) s = generate' p s
  /\ forall page page' s1 s2,
       main' p s = Ok (page, s1) ->
       main' (with_graph_type g p) s = Ok (page', s2) ->
       s1 = s2
       /\ page_metrics page = page_metrics page'
       /\ exists fig fig',
            page_figure page = Some fig /\ page_figure page' = Some fig'
            /\ figsize fig = figsize fig' /\ rc fig = rc fig'
            /\ decorations (axes fig) = decorations (axes fig').
Proof.
  split; [reflexivity|].
  intros page page' s1 s2 H H'.
  apply main_inv in H. destruct H as (d & fig & panel & Hd & Hr & Hs & ->).
  apply main_inv in H'.
  destruct H' as (d' & fig' & panel' & Hd' & Hr' & Hs' & ->).
  change (generate' (with_graph_type g p) s) with (generate' p s) in Hd'.
  rewrite Hd in Hd'. inversion Hd'; subst d' s2; clear Hd'.
  rewrite Hs in Hs'. inversion Hs'; subst panel'; clear Hs'.
  split; [reflexivity|]. split; [reflexivity|].
  exists fig, fig'. split; [reflexivity|]. split; [reflexivity|].
  apply render_inv in Hr. destruct Hr as (ax & sc & Hp & ->).
  apply render_inv in Hr'. destruct Hr' as (ax' & sc' & Hp' & ->).
  apply plot_frame in Hp. destruct Hp as [_ Hp].
  apply plot_frame in Hp'. destruct Hp' as [_ Hp'].
  split; [reflexivity|]. split; [reflexivity|].
  simpl. rewrite !customize_decorations.
  assert (E : legend ax = legend ax').
  { unfold decorations in Hp, Hp'. inversion Hp. inversion Hp'. congruence. }
  now rewrite E.
Qed.

(** *** The noise-free dataset *)

Lemma zero_noise_array (f : float -> float) (a g : array) :
  Forall (fun z => is_finite z = true) g ->
  List.length g = List.length a ->
  zip_add (map f a) (map (fun z => (0 + 0 * z)%float) g)
  = map (fun v => (f v + 0)%float) a.
Proof.
  revert g; induction a as [|v a IH]; intros [|z g] Hg Hlen; simpl in *;
    try discriminate; [reflexivity|].
  inversion Hg; subst. rewrite zero_scale_noise by assumption.
  now rewrite IH by (auto; congruence).
Qed.

Lemma add_zero_Forall2 (f : float -> float) (a : array) :
  (forall v, In v a -> is_nan (f v) = false) ->
  Forall2 (fun y v => (y =? f v)%float = true)
    (map (fun v => (f v + 0)%float) a) a.
Proof.
  induction a as [|v a IH]; intros H; simpl; constructor.
  - apply add_zero_eqb, H. now left.
  - apply IH. intros u Hu. apply H. now right.
Qed.

(** C2.  At noise level 0 the script generates a dataset in which every
    [y1[i]] compares equal to [sin(x[i])] and every [y2[i]] to
    [cos(x[i])], whatever the number of points (in particular for the
    slider's 10..500).  The random source has no part in it: y1 is
    [sin(x) + 0] and y2 is [cos(x) + 0], the same arrays from every state
    of the source.  The deviates drawn are finite, and sine and cosine are
    defined (not NaN) at the samples. *)
Theorem noise_free_dataset (p : Params) (s : RandomState) :
  noise_level p = 0%float ->
  (forall s0, is_finite (fst (legacy_gauss s0)) = true) ->
  (forall v, In v (linspace 0 10 (num_points p)) ->
     is_nan (np_sin v) = false /\ is_nan (np_cos v) = false) ->
  exists d s',
    generate' p s = Ok (d, s')
    /\ Forall2 (fun y v => (y =? np_sin v)%float = true) (y1 d) (x d)
    /\ Forall2 (fun y v => (y =? np_cos v)%float = true) (y2 d) (x d)
    /\ y1 d = map (fun v => (np_sin v + 0)%float) (x d)
    /\ y2 d = map (fun v => (np_cos v + 0)%float) (x d)
    /\ forall s0, exists d0 s0',
         generate' p s0 = Ok (d0, s0')
         /\ x d0 = x d /\ y1 d0 = y1 d /\ y2 d0 = y2 d.
Proof.
  intros Hz Hfin Hdef.
  assert (Hs : negb (is_nan (noise_level p)) && signbit (noise_level p) = false)
    by now rewrite Hz.
  assert (Hy : forall (f : float -> float) s0,
             zip_add (map f (linspace 0 10 (num_points p)))
               (map (fun z => (0 + noise_level p * z)%float)
                  (fst (draws legacy_gauss (num_points p) s0)))
             = map (fun v => (f v + 0)%float) (linspace 0 10 (num_points p))).
  { intros f s0. rewrite Hz. apply zero_noise_array.
    - now apply draws_Forall.
    - now rewrite draws_length, linspace_length. }
  eexists; eexists. split; [apply generate_closed; assumption|].
  simpl. rewrite !Hy. repeat split.
  - apply add_zero_Forall2. intros v Hv. now apply Hdef.
  - apply add_zero_Forall2. intros v Hv. now apply Hdef.
  - intros s0. eexists; eexists.
    split; [apply generate_closed; assumption|].
    simpl. now rewrite !Hy.
Qed.

(** *** The lengths of the dataset *)

(** C3.  From every state of the random source, and for every number of
    points (in particular 10..500) and every noise level of the slider
    (sign bit clear), the script generates a dataset whose four arrays
    x, y1, y2 and categories all have length [num_points]. *)
Theorem dataset_lengths (p : Params) (s : RandomState) :
  signbit (noise_level p) = false ->
  exists d s',
    generate' p s = Ok (d, s')
    /\ List.length (x d) = num_points p
    /\ List.length (y1 d) = num_points p
    /\ List.length (y2 d) = num_points p
    /\ List.length (categories d) = num_points p.
Proof.
  intros H. destruct (generate_ok p s H) as (d & s' & Hg).
  exists d, s'. split; [assumption|]. now apply (generate_lengths p s s').
Qed.

(** *** The sample grid *)

Lemma increasing_all_spec (a : array) :
  increasing_all a = true ->
  forall i j u v, i < j ->
    nth_error a i = Some u -> nth_error a j = Some v -> (u <? v)%float = true.
Proof.
  induction a as [|h t IH]; intros H i j u v Hij Hi Hj.
  - now rewrite nth_error_nil in Hi.
  - simpl in H. apply andb_prop in H. destruct H as [Hh Ht].
    destruct j as [|j]; [lia|]. simpl in Hj.
    destruct i as [|i]; simpl in Hi.
    + inversion Hi; subst.
      rewrite forallb_forall in Hh. apply Hh. eapply nth_error_In; eauto.
    + apply (IH Ht i j); auto; lia.
Qed.

Lemma grid_checked_slider : forallb grid_checked (seq 10 491) = true.
Proof. vm_compute. reflexivity. Qed.

Lemma linspace_slider (n : nat) :
  10 <= n <= 500 ->
  let a := linspace 0 10 n in
  (forall i j u v, i < j ->
     nth_error a i = Some u -> nth_error a j = Some v -> (u <? v)%float = true)
  /\ nth_error a 0 = Some 0%float
  /\ nth_error a (n - 1) = Some 10%float.
Proof.
  intros Hn a.
  assert (H : grid_checked n = true).
  { pose proof grid_checked_slider as Hall. rewrite forallb_forall in Hall.
    apply Hall, in_seq. lia. }
  unfold grid_checked in H. fold a in H.
  apply andb_prop in H. destruct H as [H H10].
  apply andb_prop in H. destruct H as [Hinc H0].
  split; [now apply increasing_all_spec|].
  split.
  - destruct (nth_error a 0); [|discriminate].
    now apply FloatAxioms.Leibniz.eqb_spec in H0; subst.
  - destruct (nth_error a (n - 1)); [|discriminate].
    now apply FloatAxioms.Leibniz.eqb_spec in H10; subst.
Qed.

(** C4.  For every number of points in 10..500 the generated x is strictly
    increasing (every earlier sample is below every later one), its first
    element is exactly 0 and its last element is exactly 10, hence both
    within any tolerance. *)
Theorem x_grid (p : Params) (s : RandomState) :
  10 <= num_points p <= 500 ->
  signbit (noise_level p) = false ->
  exists d s',
    generate' p s = Ok (d, s')
    /\ (forall i j u v, i < j ->
          nth_error (x d) i = Some u -> nth_error (x d) j = Some v ->
          (u <? v)%float = true)
    /\ nth_error (x d) 0 = Some 0%float
    /\ nth_error (x d) (num_points p - 1) = Some 10%float.
Proof.
  intros Hn Hs.
  eexists; eexists. split.
  - apply generate_closed. rewrite Hs. apply andb_false_r.
  - simpl. now apply linspace_slider.
Qed.

(** *** The bar chart *)

Lemma plot_bar (p : Params) (d : Dataset) (ax : Axes) :
  graph_type p = "Bar Chart" ->
  plot p d ax
  = Ok (add_artist
          (BarContainer (array_add_scalar (slice_step 10 (x d)) 0.5)
             (slice_step 10 (y2 d)) 0.5 0.7 "Cosine Values")
          (add_artist
             (BarContainer (slice_step 10 (x d)) (slice_step 10 (y1 d))
                0.5 0.7 "Sine Values") ax),
        None).
Proof. intros H. unfold plot. rewrite H. reflexivity. Qed.

(** The figure of a bar-chart run: two bar series over the stride-10
    slices of the dataset. *)
Lemma bar_chart_figure (p : Params) (s : RandomState) :
  graph_type p = "Bar Chart" ->
  1 <= num_points p ->
  signbit (noise_level p) = false ->
  exists page s' d fig,
    main' p s = Ok (page, s')
    /\ generate' p s = Ok (d, s')
    /\ page_figure page = Some fig
    /\ artists (axes fig)
       = [ BarContainer (slice_step 10 (x d)) (slice_step 10 (y1 d))
             0.5 0.7 "Sine Values";
           BarContainer (array_add_scalar (slice_step 10 (x d)) 0.5)
             (slice_step 10 (y2 d)) 0.5 0.7 "Cosine Values" ].
Proof.
  intros Hg Hn Hs.
  destruct (generate_ok p s Hs) as (d & s' & Hd).
  destruct (main_of_dataset p s s' d Hd Hn)
    as (ax & sc & m1 & m2 & m3 & m4 & Hp & _ & _ & _ & _ & Hm).
  rewrite plot_bar in Hp by assumption. inversion Hp; subst; clear Hp.
  eexists; exists s', d; eexists.
  split; [exact Hm|]. split; [exact Hd|]. split; [reflexivity|].
  simpl. now rewrite customize_artists.
Qed.

(** C5.  A bar-chart run with 100 points draws two bar series of exactly
    10 bars each, the k-th bar standing at sample [10 * k] (k = 0..9);
    every bar has width 0.5, and the x positions of the second series are
    those of the first plus 0.5. *)
Theorem bar_chart_100 (p : Params) (s : RandomState) :
  graph_type p = "Bar Chart" ->
  num_points p = 100 ->
  signbit (noise_level p) = false ->
  exists page s' d fig xs h1 h2,
    main' p s = Ok (page, s')
    /\ generate' p s = Ok (d, s')
    /\ page_figure page = Some fig
    /\ artists (axes fig)
       = [ BarContainer xs h1 0.5 0.7 "Sine Values";
           BarContainer (map (fun u => (u + 0.5)%float) xs) h2 0.5 0.7
             "Cosine Values" ]
    /\ List.length xs = 10 /\ List.length h1 = 10 /\ List.length h2 = 10
    /\ forall k, k < 10 ->
         nth_error xs k = nth_error (x d) (10 * k)
         /\ nth_error h1 k = nth_error (y1 d) (10 * k)
         /\ nth_error h2 k = nth_error (y2 d) (10 * k).
Proof.
  intros Hg Hn Hs.
  destruct (bar_chart_figure p s Hg) as (page & s' & d & fig & Hm & Hd & Hf & Ha);
    [lia | assumption |].
  destruct (generate_lengths p s s' d Hd) as (Lx & L1 & L2 & _).
  exists page, s', d, fig,
    (slice_step 10 (x d)), (slice_step 10 (y1 d)), (slice_step 10 (y2 d)).
  repeat (split; [assumption|]).
  rewrite !slice_step_length, Lx, L1, L2, Hn by lia.
  repeat (split; [reflexivity|]).
  intros k _. now rewrite !slice_step_nth by lia.
Qed.

(** C10.  A bar-chart run draws, per series, as many bars as the stride-10
    slice from index 0 is long: the ceiling of [num_points / 10], that is
    [(num_points + 9) / 10], the least count whose tenfold reaches
    [num_points].  This holds for every positive number of points, so for
    10..500; for 95 points it is 10 bars, not 95 / 10 = 9. *)
Theorem bar_count_is_ceiling (p : Params) (s : RandomState) :
  graph_type p = "Bar Chart" ->
  1 <= num_points p ->
  signbit (noise_level p) = false ->
  exists page s' fig xs1 h1 xs2 h2 bars,
    main' p s = Ok (page, s')
    /\ page_figure page = Some fig
    /\ artists (axes fig)
       = [ BarContainer xs1 h1 0.5 0.7 "Sine Values";
           BarContainer xs2 h2 0.5 0.7 "Cosine Values" ]
    /\ List.length xs1 = bars /\ List.length h1 = bars
    /\ List.length xs2 = bars /\ List.length h2 = bars
    /\ bars = (num_points p + 9) / 10
    /\ 10 * (bars - 1) < num_points p <= 10 * bars
    /\ (num_points p = 95 -> bars = 10 /\ bars <> num_points p / 10).
Proof.
  intros Hg Hn Hs.
  destruct (bar_chart_figure p s Hg Hn Hs)
    as (page & s' & d & fig & Hm & Hd & Hf & Ha).
  destruct (generate_lengths p s s' d Hd) as (Lx & L1 & L2 & _).
  exists page, s', fig,
    (slice_step 10 (x d)), (slice_step 10 (y1 d)),
    (array_add_scalar (slice_step 10 (x d)) 0.5), (slice_step 10 (y2 d)),
    ((num_points p + 9) / 10).
  repeat (split; [assumption|]).
  unfold array_add_scalar.
  rewrite ?length_map, !slice_step_length, Lx, L1, L2 by lia.
  repeat (split; [reflexivity|]).
  pose proof (Nat.div_mod_eq (num_points p + 9) 10) as E.
  pose proof (Nat.mod_upper_bound (num_points p + 9) 10) as B.
  split; [lia|].
  intros H95. rewrite H95. split; [reflexivity | discriminate].
Qed.

(** *** The summary panel *)

(** C6.  A run shows four metrics, in this order: "Max Sine Value",
    "Min Sine Value", "Max Cosine Value" and "Min Cosine Value", whose
    values are [np.max(y1)], [np.min(y1)], [np.max(y2)] and [np.min(y2)] of
    the generated arrays (each the maximum, resp. minimum, of its array),
    formatted with two decimals.  For y1 = [0.0, 0.84, 0.91, 0.14, -0.76]
    the first two read "0.91" and "-0.76". *)
Theorem summary_metrics (p : Params) (s : RandomState) :
  1 <= num_points p ->
  signbit (noise_level p) = false ->
  (exists page s' d max1 min1 max2 min2,
     main' p s = Ok (page, s')
     /\ generate' p s = Ok (d, s')
     /\ np_max (y1 d) = Ok max1 /\ is_max (y1 d) max1
     /\ np_min (y1 d) = Ok min1 /\ is_min (y1 d) min1
     /\ np_max (y2 d) = Ok max2 /\ is_max (y2 d) max2
     /\ np_min (y2 d) = Ok min2 /\ is_min (y2 d) min2
     /\ page_metrics page
        = [ ("Max Sine Value", format_f false 2 max1);
            ("Min Sine Value", format_f false 2 min1);
            ("Max Cosine Value", format_f false 2 max2);
            ("Min Cosine Value", format_f false 2 min2) ])
  /\ (forall d,
        y1 d = [0; 0.84; 0.91; 0.14; -0.76]%float -> y2 d <> [] ->
        exists panel,
          summary d = Ok panel
          /\ firstn 2 (metrics panel)
             = [ ("Max Sine Value", "0.91"); ("Min Sine Value", "-0.76") ]).
Proof.
  intros Hn Hs. split.
  - destruct (generate_ok p s Hs) as (d & s' & Hd).
    destruct (main_of_dataset p s s' d Hd Hn)
      as (ax & sc & m1 & m2 & m3 & m4 & _ & H1 & H2 & H3 & H4 & Hm).
    eexists; exists s', d, m1, m2, m3, m4.
    split; [exact Hm|]. split; [exact Hd|].
    repeat split; auto using np_max_spec, np_min_spec;
      try (eapply np_max_spec; eassumption);
      try (eapply np_min_spec; eassumption).
  - intros d Hy1 Hy2.
    destruct (np_max_nonempty _ Hy2) as [max2 H3].
    destruct (np_min_nonempty _ Hy2) as [min2 H4].
    eexists. split.
    + apply (summary_closed d 0.91 (-0.76) max2 min2); auto;
        rewrite Hy1; reflexivity.
    + reflexivity.
Qed.

(** *** The scatter plot *)

Lemma plot_scatter (p : Params) (d : Dataset) (ax : Axes) :
  graph_type p = "Scatter Plot" ->
  plot p d ax
  = if show_annotations p then
      a <- peak_annotation d ;;
      Ok (add_artist a
            (add_artist
               (PathCollection (x d) (y1 d) (y2 d) "viridis" 100 0.7
                  "Data Points") ax),
          Some (PathCollection (x d) (y1 d) (y2 d) "viridis" 100 0.7
                  "Data Points"))
    else
      Ok (add_artist
            (PathCollection (x d) (y1 d) (y2 d) "viridis" 100 0.7
               "Data Points") ax,
          Some (PathCollection (x d) (y1 d) (y2 d) "viridis" 100 0.7
                  "Data Points")).
Proof. intros H. unfold plot. rewrite H. reflexivity. Qed.

(** C7.  A scatter-plot run draws y1 against x as one collection of points
    coloured by y2 through the colour map "viridis", and attaches a colour
    bar to that collection, labelled "Cosine Values".  With
    [show_annotations] off nothing else is drawn; with it on, exactly one
    annotation follows, pointing at [(x[k], y1[k])] for an index [k] where
    y1 is maximal ([y1[k]] is [np.max(y1)]), with its text at
    [(x[k] + 1, y1[k] + 0.5)]. *)
Theorem scatter_plot_figure (p : Params) (s : RandomState) :
  graph_type p = "Scatter Plot" ->
  1 <= num_points p ->
  signbit (noise_level p) = false ->
  exists page s' d fig,
    main' p s = Ok (page, s')
    /\ generate' p s = Ok (d, s')
    /\ page_figure page = Some fig
    /\ colorbar fig
       = Some {| mappable :=
                   PathCollection (x d) (y1 d) (y2 d) "viridis" 100 0.7
                     "Data Points";
                 colorbar_label := "Cosine Values" |}
    /\ (show_annotations p = false ->
        artists (axes fig)
        = [ PathCollection (x d) (y1 d) (y2 d) "viridis" 100 0.7
              "Data Points" ])
    /\ (show_annotations p = true ->
        exists k xk m,
          nth_error (x d) k = Some xk /\ nth_error (y1 d) k = Some m
          /\ np_max (y1 d) = Ok m /\ is_max (y1 d) m
          /\ artists (axes fig)
             = [ PathCollection (x d) (y1 d) (y2 d) "viridis" 100 0.7
                   "Data Points";
                 Annotation "Peak Value" (xk, m)
                   ((xk + 1)%float, (m + 0.5)%float) "black" 0.05 ]).
Proof.
  intros Hg Hn Hs.
  destruct (generate_ok p s Hs) as (d & s' & Hd).
  destruct (generate_lengths p s s' d Hd) as (Lx & L1 & _).
  destruct (main_of_dataset p s s' d Hd Hn)
    as (ax & sc & m1 & m2 & m3 & m4 & Hp & _ & _ & _ & _ & Hm).
  rewrite plot_scatter in Hp by assumption.
  assert (N1 : y1 d <> []) by (apply nonempty_length; lia).
  destruct (peak_annotation_ok d N1) as (k & xk & m & _ & Hmax & Hxk & Hyk & Ha);
    [congruence|].
  eexists; exists s', d; eexists.
  split; [exact Hm|]. split; [exact Hd|]. split; [reflexivity|].
  destruct (show_annotations p).
  - rewrite Ha in Hp. simpl in Hp. inversion Hp; subst; clear Hp.
    split; [unfold add_colorbar; now rewrite Hg|].
    split; [discriminate|]. intros _.
    exists k, xk, m. repeat (split; [assumption|]).
    split; [now apply np_max_spec|].
    simpl. now rewrite customize_artists.
  - inversion Hp; subst; clear Hp.
    split; [unfold add_colorbar; now rewrite Hg|].
    split; [|discriminate]. intros _.
    simpl. now rewrite customize_artists.
Qed.

(** *** The common post-processing *)

Lemma customize_title (p : Params) (ax : Axes) :
  title (customize p ax) = "Beautiful " ++ graph_type p.
Proof. unfold customize. now destruct (show_legend p). Qed.



Lemma customize_grid (p : Params) (ax : Axes) :
  grid_on (customize p ax) = true
  /\ grid_linestyle (customize p ax) = "--"
  /\ grid_alpha (customize p ax) = 0.6%float.
Proof. unfold customize. now destruct (show_legend p). Qed.

(** C8, the grid.  With [show_grid] off a run still draws grid lines,
    dashed and at 60% opacity: the script hands [show_grid] to [ax.grid]
    together with line properties, and with line properties [ax.grid]
    turns the grid on. *)
Theorem grid_drawn_with_show_grid_off (p : Params) (s : RandomState) :
  show_grid p = false ->
  1 <= num_points p ->
  signbit (noise_level p) = false ->
  exists page s' fig,
    main' p s = Ok (page, s')
    /\ page_figure page = Some fig
    /\ rc_style (rc fig) = "white"
    /\ grid_on (axes fig) = true
    /\ grid_linestyle (axes fig) = "--"
    /\ grid_alpha (axes fig) = 0.6%float.
Proof.
  intros Hg Hn Hs.
  destruct (generate_ok p s Hs) as (d & s' & Hd).
  destruct (main_of_dataset p s s' d Hd Hn)
    as (ax & sc & m1 & m2 & m3 & m4 & _ & _ & _ & _ & _ & Hm).
  eexists; exists s'; eexists.
  split; [exact Hm|]. split; [reflexivity|]. simpl.
  split; [now rewrite Hg|]. apply customize_grid.
Qed.

(** Every recompute cycle completes: for widget values the sidebar can
    return, a run returns a page. *)
Lemma main_total (p : Params) (s : RandomState) :
  sidebar_ok p = true -> exists page s', main' p s = Ok (page, s').
Proof.
  unfold sidebar_ok. intros H.
  repeat (apply andb_prop in H; destruct H as [H ?]).
  assert (Hs : signbit (noise_level p) = false)
    by now destruct (signbit (noise_level p)).
  assert (Hn : 1 <= num_points p).
  { assert (10 <= num_points p) by now apply Nat.leb_le. lia. }
  destruct (generate_ok p s Hs) as (d & s' & Hd).
  destruct (main_of_dataset p s s' d Hd Hn)
    as (ax & sc & m1 & m2 & m3 & m4 & _ & _ & _ & _ & _ & Hm).
  eauto.
Qed.

End ScriptFacts.

(** *** The categories are dead data *)

Lemma render_ignores_categories (p : Params) (d : Dataset) (c : list string) :
  render p (with_categories c d) = render p d.
Proof. reflexivity. Qed.

Lemma summary_ignores_categories (d : Dataset) (c : list string) :
  summary (with_categories c d) = summary d.
Proof. reflexivity. Qed.

(** C9.  Two runs that differ only in the values drawn into [categories]
    (the integer sampler behind [np.random.choice] is replaced by another)
    end alike: both return the same page, figure and summary panel
    included, or both raise the same exception.  Nor does replacing the
    categories of a dataset change the figure or the panel made from it. *)
Theorem categories_never_influence_output
    (np_sin np_cos : float -> float) (RandomState : Type)
    (legacy_gauss : RandomState -> float * RandomState)
    (rk_interval rk_interval' : nat -> RandomState -> nat * RandomState)
    (p : Params) (s : RandomState) :
  outcome (main np_sin np_cos RandomState legacy_gauss rk_interval' p s)
  = outcome (main np_sin np_cos RandomState legacy_gauss rk_interval p s)
  /\ forall d c,
       render p (with_categories c d) = render p d
       /\ summary (with_categories c d) = summary d.
Proof.
  split; [|intros d c; split; reflexivity].
  unfold main, bind.
  destruct (negb (is_nan (noise_level p)) && signbit (noise_level p)) eqn:Hs.
  - now rewrite !generate_raises.
  - rewrite !generate_closed by assumption.
    unfold lift, ret. cbn [x y1 y2 render summary].
    match goal with
    | |- context [render p ?d] =>
        change (render p d) with
          (render p
             {| x := linspace 0 10 (num_points p);
                y1 := y1 d; y2 := y2 d; categories := [] |})
    end.
    destruct (render p _) as [fig|e]; [|reflexivity].
    match goal with
    | |- context [summary ?d] =>
        change (summary d) with
          (summary
             {| x := linspace 0 10 (num_points p);
                y1 := y1 d; y2 := y2 d; categories := [] |})
    end.
    destruct (summary _) as [panel|e]; reflexivity.
Qed.

(** ** The theorems at concrete widget values

    Each theorem above that has premises is applied to the concrete
    instance, with the premises checked by evaluation. *)

Lemma tape_finite (s0 : Instance.RandomState) :
  is_finite (fst (Instance.legacy_gauss s0)) = true.
Proof.
  unfold Instance.legacy_gauss, Instance.tape, fst.
  destruct (s0 mod 8) as [|[|[|[|[|[|[|[|[|k]]]]]]]]]; reflexivity.
Defined.

Lemma noise_free_dataset_witness :
  exists d s',
    Instance.dataset (mkParams "Line Plot" "deep" true true true 10 0) 0
    = Ok (d, s')
    /\ Forall2 (fun y v => (y =? Instance.sin v)%float = true) (y1 d) (x d)
    /\ Forall2 (fun y v => (y =? Instance.cos v)%float = true) (y2 d) (x d)
    /\ y1 d = map (fun v => (Instance.sin v + 0)%float) (x d)
    /\ y2 d = map (fun v => (Instance.cos v + 0)%float) (x d)
    /\ forall s0, exists d0 s0',
         Instance.dataset (mkParams "Line Plot" "deep" true true true 10 0) s0
         = Ok (d0, s0')
         /\ x d0 = x d /\ y1 d0 = y1 d /\ y2 d0 = y2 d.
Proof.
  apply (noise_free_dataset Instance.sin Instance.cos Instance.RandomState
           Instance.legacy_gauss Instance.rk_interval
           (mkParams "Line Plot" "deep" true true true 10 0) 0).
  - reflexivity.
  - exact tape_finite.
  - intros v Hv. vm_compute in Hv.
    repeat (destruct Hv as [Hv|Hv]; [subst v; split; reflexivity|]).
    destruct Hv.
Defined.

Lemma dataset_lengths_witness :
  signbit (noise_level default_params) = false
  /\ exists d s',
       Instance.dataset default_params 0 = Ok (d, s')
       /\ List.length (x d) = 100 /\ List.length (y1 d) = 100
       /\ List.length (y2 d) = 100 /\ List.length (categories d) = 100.
Proof.
  split; [reflexivity|].
  apply (dataset_lengths Instance.sin Instance.cos Instance.RandomState
           Instance.legacy_gauss Instance.rk_interval default_params 0).
  reflexivity.
Defined.

Lemma x_grid_witness :
  exists d s',
    Instance.dataset default_params 0 = Ok (d, s')
    /\ (forall i j u v, i < j ->
          nth_error (x d) i = Some u -> nth_error (x d) j = Some v ->
          (u <? v)%float = true)
    /\ nth_error (x d) 0 = Some 0%float
    /\ nth_error (x d) 99 = Some 10%float.
Proof.
  apply (x_grid Instance.sin Instance.cos Instance.RandomState
           Instance.legacy_gauss Instance.rk_interval default_params 0).
  - simpl. lia.
  - reflexivity.
Defined.

Lemma bar_chart_100_witness :
  exists page s' d fig xs h1 h2,
    Instance.run (mkParams "Bar Chart" "deep" true true true 100 0.1) 0
    = Ok (page, s')
    /\ Instance.dataset (mkParams "Bar Chart" "deep" true true true 100 0.1) 0
       = Ok (d, s')
    /\ page_figure page = Some fig
    /\ artists (axes fig)
       = [ BarContainer xs h1 0.5 0.7 "Sine Values";
           BarContainer (map (fun u => (u + 0.5)%float) xs) h2 0.5 0.7
             "Cosine Values" ]
    /\ List.length xs = 10 /\ List.length h1 = 10 /\ List.length h2 = 10
    /\ forall k, k < 10 ->
         nth_error xs k = nth_error (x d) (10 * k)
         /\ nth_error h1 k = nth_error (y1 d) (10 * k)
         /\ nth_error h2 k = nth_error (y2 d) (10 * k).
Proof.
  apply (bar_chart_100 Instance.sin Instance.cos Instance.RandomState
           Instance.legacy_gauss Instance.rk_interval
           (mkParams "Bar Chart" "deep" true true true 100 0.1) 0);
    reflexivity.
Defined.

Lemma bar_count_is_ceiling_witness :
  exists page s' fig xs1 h1 xs2 h2 bars,
    Instance.run (mkParams "Bar Chart" "deep" true true true 95 0.1) 0
    = Ok (page, s')
    /\ page_figure page = Some fig
    /\ artists (axes fig)
       = [ BarContainer xs1 h1 0.5 0.7 "Sine Values";
           BarContainer xs2 h2 0.5 0.7 "Cosine Values" ]
    /\ List.length xs1 = bars /\ List.length h1 = bars
    /\ List.length xs2 = bars /\ List.length h2 = bars
    /\ bars = (95 + 9) / 10
    /\ 10 * (bars - 1) < 95 <= 10 * bars
    /\ (95 = 95 -> bars = 10 /\ bars <> 95 / 10).
Proof.
  apply (bar_count_is_ceiling Instance.sin Instance.cos Instance.RandomState
           Instance.legacy_gauss Instance.rk_interval
           (mkParams "Bar Chart" "deep" true true true 95 0.1) 0).
  - reflexivity.
  - simpl. lia.
  - reflexivity.
Defined.

Lemma summary_metrics_witness :
  (exists page s' d max1 min1 max2 min2,
     Instance.run default_params 0 = Ok (page, s')
     /\ Instance.dataset default_params 0 = Ok (d, s')
     /\ np_max (y1 d) = Ok max1 /\ is_max (y1 d) max1
     /\ np_min (y1 d) = Ok min1 /\ is_min (y1 d) min1
     /\ np_max (y2 d) = Ok max2 /\ is_max (y2 d) max2
     /\ np_min (y2 d) = Ok min2 /\ is_min (y2 d) min2
     /\ page_metrics page
        = [ ("Max Sine Value", format_f false 2 max1);
            ("Min Sine Value", format_f false 2 min1);
            ("Max Cosine Value", format_f false 2 max2);
            ("Min Cosine Value", format_f false 2 min2) ])
  /\ (forall d,
        y1 d = [0; 0.84; 0.91; 0.14; -0.76]%float -> y2 d <> [] ->
        exists panel,
          summary d = Ok panel
          /\ firstn 2 (metrics panel)
             = [ ("Max Sine Value", "0.91"); ("Min Sine Value", "-0.76") ]).
Proof.
  apply (summary_metrics Instance.sin Instance.cos Instance.RandomState
           Instance.legacy_gauss Instance.rk_interval default_params 0).
  - simpl. lia.
  - reflexivity.
Defined.

Lemma scatter_plot_figure_witness :
  exists page s' d fig,
    Instance.run (mkParams "Scatter Plot" "deep" true true true 100 0.1) 0
    = Ok (page, s')
    /\ Instance.dataset (mkParams "Scatter Plot" "deep" true true true 100 0.1) 0
       = Ok (d, s')
    /\ page_figure page = Some fig
    /\ colorbar fig
       = Some {| mappable :=
                   PathCollection (x d) (y1 d) (y2 d) "viridis" 100 0.7
                     "Data Points";
                 colorbar_label := "Cosine Values" |}
    /\ (true = false ->
        artists (axes fig)
        = [ PathCollection (x d) (y1 d) (y2 d) "viridis" 100 0.7
              "Data Points" ])
    /\ (true = true ->
        exists k xk m,
          nth_error (x d) k = Some xk /\ nth_error (y1 d) k = Some m
          /\ np_max (y1 d) = Ok m /\ is_max (y1 d) m
          /\ artists (axes fig)
             = [ PathCollection (x d) (y1 d) (y2 d) "viridis" 100 0.7
                   "Data Points";
                 Annotation "Peak Value" (xk, m)
                   ((xk + 1)%float, (m + 0.5)%float) "black" 0.05 ]).
Proof.
  apply (scatter_plot_figure Instance.sin Instance.cos Instance.RandomState
           Instance.legacy_gauss Instance.rk_interval
           (mkParams "Scatter Plot" "deep" true true true 100 0.1) 0).
  - reflexivity.
  - simpl. lia.
  - reflexivity.
Defined.

Lemma grid_drawn_with_show_grid_off_witness :
  exists page s' fig,
    Instance.run (mkParams "Line Plot" "deep" false true true 100 0.1) 0
    = Ok (page, s')
    /\ page_figure page = Some fig
    /\ rc_style (rc fig) = "white"
    /\ grid_on (axes fig) = true
    /\ grid_linestyle (axes fig) = "--"
    /\ grid_alpha (axes fig) = 0.6%float.
Proof.
  apply (grid_drawn_with_show_grid_off Instance.sin Instance.cos
           Instance.RandomState Instance.legacy_gauss Instance.rk_interval
           (mkParams "Line Plot" "deep" false true true 100 0.1) 0).
  - reflexivity.
  - simpl. lia.
  - reflexivity.
Defined.

(** ** Further results on the script *)

Section RunFacts.

Variables np_sin np_cos : float -> float.
Variable RandomState : Type.
Variable legacy_gauss : RandomState -> float * RandomState.
Variable rk_interval : nat -> RandomState -> nat * RandomState.

Local Abbreviation generate' :=
  (generate np_sin np_cos RandomState legacy_gauss rk_interval).
Local Abbreviation main' :=
  (main np_sin np_cos RandomState legacy_gauss rk_interval).

(** *** When a run fails *)







(** X1.  For every combination of widget values the sidebar can return,
    the run completes: it raises nothing and returns a page of five
    elements that holds the figure, one table and four metrics. *)
Theorem valid_run_completes (p : Params) (s : RandomState) :
  sidebar_ok p = true ->
  exists page s' fig,
    main' p s = Ok (page, s')
    /\ List.length page = 5
    /\ page_figure page = Some fig
    /\ List.length (page_metrics page) = 4
    /\ List.length (page_dataframes page) = 1.
Proof.
  unfold sidebar_ok. intros H.
  repeat (apply andb_prop in H; destruct H as [H ?]).
  assert (Hs : signbit (noise_level p) = false)
    by now destruct (signbit (noise_level p)).
  assert (Hn : 1 <= num_points p).
  { assert (10 <= num_points p) by now apply Nat.leb_le. lia. }
  destruct (generate_ok np_sin np_cos RandomState legacy_gauss rk_interval p s Hs)
    as (d & s' & Hd).
  destruct (main_of_dataset np_sin np_cos RandomState legacy_gauss rk_interval p s s' d Hd Hn)
    as (ax & sc & m1 & m2 & m3 & m4 & _ & _ & _ & _ & _ & Hm).
  eexists; exists s'; eexists. split; [exact Hm|].
  repeat split.
Qed.

(** *** The line plot, the area chart and the missing default branch *)

Lemma plot_line (p : Params) (d : Dataset) (ax : Axes) :
  graph_type p = "Line Plot" ->
  plot p d ax
  = Ok (add_artist
          (Line2D (x d) (y2 d) "Cosine Wave" 2.5 None None None (Some "--"))
          (add_artist
             (Line2D (x d) (y1 d) "Sine Wave" 2.5 (Some "o") (Some 5)
                (Some 6%float) None) ax),
        None).
Proof. intros H. unfold plot. rewrite H. reflexivity. Qed.

Lemma plot_area (p : Params) (d : Dataset) (ax : Axes) :
  graph_type p = "Area Chart" ->
  plot p d ax
  = Ok (add_artist (FillBetween (x d) (y2 d) 0.4 "Cosine Wave")
          (add_artist (FillBetween (x d) (y1 d) 0.4 "Sine Wave") ax),
        None).
Proof. intros H. unfold plot. rewrite H. reflexivity. Qed.

Lemma plot_unlisted (p : Params) (d : Dataset) (ax : Axes) :
  in_options (graph_type p) graph_type_options = false ->
  plot p d ax = Ok (ax, None).
Proof.
  unfold in_options, graph_type_options. simpl. intros H.
  repeat (apply orb_false_elim in H; destruct H as [? H]).
  unfold plot.
  repeat match goal with
         | E : String.eqb _ _ = false |- _ => rewrite E; clear E
         end.
  reflexivity.
Qed.

Lemma add_colorbar_None (p : Params) : add_colorbar p None = None.
Proof. unfold add_colorbar. now destruct (String.eqb _ _). Qed.

(** X5.  A line-plot run draws exactly two lines over all [num_points]
    samples and nothing else: y1 against x, labelled "Sine Wave", width
    2.5, with a round marker of size 6 at every 5th sample; then y2
    against x, labelled "Cosine Wave", width 2.5, dashed, without markers.
    The figure has no colour bar. *)
Theorem line_plot_figure (p : Params) (s : RandomState) :
  graph_type p = "Line Plot" ->
  1 <= num_points p ->
  signbit (noise_level p) = false ->
  exists page s' d fig,
    main' p s = Ok (page, s')
    /\ generate' p s = Ok (d, s')
    /\ page_figure page = Some fig
    /\ artists (axes fig)
       = [ Line2D (x d) (y1 d) "Sine Wave" 2.5 (Some "o") (Some 5)
             (Some 6%float) None;
           Line2D (x d) (y2 d) "Cosine Wave" 2.5 None None None (Some "--") ]
    /\ List.length (x d) = num_points p
    /\ List.length (y1 d) = num_points p
    /\ List.length (y2 d) = num_points p
    /\ colorbar fig = None.
Proof.
  intros Hg Hn Hs.
  destruct (generate_ok np_sin np_cos RandomState legacy_gauss rk_interval p s Hs)
    as (d & s' & Hd).
  destruct (generate_lengths np_sin np_cos RandomState legacy_gauss rk_interval p s s' d Hd) as (Lx & L1 & L2 & _).
  destruct (main_of_dataset np_sin np_cos RandomState legacy_gauss rk_interval p s s' d Hd Hn)
    as (ax & sc & m1 & m2 & m3 & m4 & Hp & _ & _ & _ & _ & Hm).
  rewrite plot_line in Hp by assumption. inversion Hp; subst; clear Hp.
  eexists; exists s', d; eexists.
  split; [exact Hm|]. split; [exact Hd|]. split; [reflexivity|].
  simpl. rewrite customize_artists, add_colorbar_None. auto.
Qed.

(** X6.  An area-chart run draws exactly two filled regions at 40% opacity
    and nothing else: under y1, labelled "Sine Wave", then under y2,
    labelled "Cosine Wave", both over all [num_points] samples of x.  The
    figure has no colour bar. *)
Theorem area_chart_figure (p : Params) (s : RandomState) :
  graph_type p = "Area Chart" ->
  1 <= num_points p ->
  signbit (noise_level p) = false ->
  exists page s' d fig,
    main' p s = Ok (page, s')
    /\ generate' p s = Ok (d, s')
    /\ page_figure page = Some fig
    /\ artists (axes fig)
       = [ FillBetween (x d) (y1 d) 0.4 "Sine Wave";
           FillBetween (x d) (y2 d) 0.4 "Cosine Wave" ]
    /\ List.length (x d) = num_points p
    /\ List.length (y1 d) = num_points p
    /\ List.length (y2 d) = num_points p
    /\ colorbar fig = None.
Proof.
  intros Hg Hn Hs.
  destruct (generate_ok np_sin np_cos RandomState legacy_gauss rk_interval p s Hs)
    as (d & s' & Hd).
  destruct (generate_lengths np_sin np_cos RandomState legacy_gauss rk_interval p s s' d Hd) as (Lx & L1 & L2 & _).
  destruct (main_of_dataset np_sin np_cos RandomState legacy_gauss rk_interval p s s' d Hd Hn)
    as (ax & sc & m1 & m2 & m3 & m4 & Hp & _ & _ & _ & _ & Hm).
  rewrite plot_area in Hp by assumption. inversion Hp; subst; clear Hp.
  eexists; exists s', d; eexists.
  split; [exact Hm|]. split; [exact Hd|]. split; [reflexivity|].
  simpl. rewrite customize_artists, add_colorbar_None. auto.
Qed.

(** X7.  The branch on [graph_type] has no default: for a graph type that
    is none of the four options the run still completes and titles the
    figure "Beautiful <graph type>", but draws nothing on the axes and
    adds no colour bar. *)
Theorem unlisted_graph_type_draws_nothing (p : Params) (s : RandomState) :
  in_options (graph_type p) graph_type_options = false ->
  1 <= num_points p ->
  signbit (noise_level p) = false ->
  exists page s' fig,
    main' p s = Ok (page, s')
    /\ page_figure page = Some fig
    /\ artists (axes fig) = []
    /\ colorbar fig = None
    /\ title (axes fig) = "Beautiful " ++ graph_type p.
Proof.
  intros Hg Hn Hs.
  destruct (generate_ok np_sin np_cos RandomState legacy_gauss rk_interval p s Hs)
    as (d & s' & Hd).
  destruct (main_of_dataset np_sin np_cos RandomState legacy_gauss rk_interval p s s' d Hd Hn)
    as (ax & sc & m1 & m2 & m3 & m4 & Hp & _ & _ & _ & _ & Hm).
  rewrite plot_unlisted in Hp by assumption. inversion Hp; subst; clear Hp.
  eexists; exists s'; eexists.
  split; [exact Hm|]. split; [reflexivity|].
  simpl. rewrite customize_artists, add_colorbar_None, customize_title. auto.
Qed.

(** *** The colour bar and the common post-processing *)

Lemma plot_scatter_local (p : Params) (d : Dataset) (ax ax' : Axes)
    (scatter : option Artist) :
  plot p d ax = Ok (ax', scatter) ->
  (scatter <> None <-> graph_type p = "Scatter Plot").
Proof.
  unfold plot. intros H.
  destruct (String.eqb (graph_type p) "Line Plot") eqn:E1.
  { apply String.eqb_eq in E1. inversion H; subst. rewrite E1.
    split; [congruence | discriminate]. }
  destruct (String.eqb (graph_type p) "Scatter Plot") eqn:E2.
  { apply String.eqb_eq in E2.
    assert (scatter <> None); [|tauto].
    destruct (show_annotations p).
    - destruct (peak_annotation d); simpl in H; [|discriminate].
      inversion H; subst. discriminate.
    - inversion H; subst. discriminate. }
  apply String.eqb_neq in E2.
  assert (scatter = None); [|subst; tauto].
  destruct (String.eqb (graph_type p) "Bar Chart");
    [inversion H; now subst|].
  destruct (String.eqb (graph_type p) "Area Chart"); inversion H; now subst.
Qed.

(** X8.  A run adds a colour bar to the figure exactly when the graph type
    is "Scatter Plot"; the three other chart kinds, and any other value,
    never get one. *)
Theorem colorbar_only_for_scatter (p : Params) (s : RandomState) :
  1 <= num_points p ->
  signbit (noise_level p) = false ->
  exists page s' fig,
    main' p s = Ok (page, s')
    /\ page_figure page = Some fig
    /\ (colorbar fig <> None <-> graph_type p = "Scatter Plot").
Proof.
  intros Hn Hs.
  destruct (generate_ok np_sin np_cos RandomState legacy_gauss rk_interval p s Hs)
    as (d & s' & Hd).
  destruct (main_of_dataset np_sin np_cos RandomState legacy_gauss rk_interval p s s' d Hd Hn)
    as (ax & sc & m1 & m2 & m3 & m4 & Hp & _ & _ & _ & _ & Hm).
  eexists; exists s'; eexists.
  split; [exact Hm|]. split; [reflexivity|]. simpl.
  apply plot_scatter_local in Hp. unfold add_colorbar.
  destruct (String.eqb (graph_type p) "Scatter Plot") eqn:E.
  - apply String.eqb_eq in E. destruct sc; [|tauto].
    split; [auto | discriminate].
  - apply String.eqb_neq in E. split; [congruence | contradiction].
Qed.


(** X10.  The figure of a run is created 10 by 6 under the rc settings the
    widgets select: style "whitegrid" when [show_grid] is on and "white"
    when it is off (so the rc default for the grid follows [show_grid]),
    the selected colour palette, and font sizes 12, 14 (axis labels) and
    16 (title). *)
Theorem figure_style (p : Params) (s : RandomState) :
  1 <= num_points p ->
  signbit (noise_level p) = false ->
  exists page s' fig,
    main' p s = Ok (page, s')
    /\ page_figure page = Some fig
    /\ figsize fig = (10, 6)
    /\ rc fig
       = {| rc_style := if show_grid p then "whitegrid" else "white";
            rc_axes_grid := show_grid p;
            rc_palette := color_palette p;
            rc_font_size := 12;
            rc_axes_labelsize := 14;
            rc_axes_titlesize := 16 |}.
Proof.
  intros Hn Hs.
  destruct (generate_ok np_sin np_cos RandomState legacy_gauss rk_interval p s Hs)
    as (d & s' & Hd).
  destruct (main_of_dataset np_sin np_cos RandomState legacy_gauss rk_interval p s s' d Hd Hn)
    as (ax & sc & m1 & m2 & m3 & m4 & _ & _ & _ & _ & _ & Hm).
  eexists; exists s'; eexists.
  split; [exact Hm|]. split; [reflexivity|]. split; [reflexivity|].
  simpl. unfold style. now destruct (show_grid p).
Qed.

(** *** The summary panel *)

(** X11.  The summary panel of a run shows one table, with the columns
    "X Values", "Sine Values" and "Cosine Values" in this order; each
    column has [min(5, num_points)] rows, and row [i] holds [x[i]],
    [y1[i]] and [y2[i]]: the first rows of the dataset, in order. *)
Theorem preview_table (p : Params) (s : RandomState) :
  1 <= num_points p ->
  signbit (noise_level p) = false ->
  exists page s' d cx c1 c2,
    main' p s = Ok (page, s')
    /\ generate' p s = Ok (d, s')
    /\ page_dataframes page
       = [ [ ("X Values", cx); ("Sine Values", c1); ("Cosine Values", c2) ] ]
    /\ List.length cx = Nat.min 5 (num_points p)
    /\ List.length c1 = Nat.min 5 (num_points p)
    /\ List.length c2 = Nat.min 5 (num_points p)
    /\ forall i, i < 5 ->
         nth_error cx i = nth_error (x d) i
         /\ nth_error c1 i = nth_error (y1 d) i
         /\ nth_error c2 i = nth_error (y2 d) i.
Proof.
  intros Hn Hs.
  destruct (generate_ok np_sin np_cos RandomState legacy_gauss rk_interval p s Hs)
    as (d & s' & Hd).
  destruct (generate_lengths np_sin np_cos RandomState legacy_gauss rk_interval p s s' d Hd) as (Lx & L1 & L2 & _).
  destruct (main_of_dataset np_sin np_cos RandomState legacy_gauss rk_interval p s s' d Hd Hn)
    as (ax & sc & m1 & m2 & m3 & m4 & _ & _ & _ & _ & _ & Hm).
  eexists; exists s', d, (firstn 5 (x d)), (firstn 5 (y1 d)), (firstn 5 (y2 d)).
  split; [exact Hm|]. split; [exact Hd|]. split; [reflexivity|].
  rewrite !length_firstn, Lx, L1, L2.
  repeat (split; [reflexivity|]).
  intros i Hi. now rewrite !nth_error_firstn, (proj2 (Nat.ltb_lt i 5) Hi).
Qed.

(** X12.  In the summary of a dataset without NaN the minimum shown never
    exceeds the maximum shown: [np.min(y1) <= np.max(y1)] and
    [np.min(y2) <= np.max(y2)] for the values behind the four metrics. *)
Theorem summary_min_below_max (d : Dataset) :
  y1 d <> [] -> y2 d <> [] -> no_nan (y1 d) -> no_nan (y2 d) ->
  exists panel max1 min1 max2 min2,
    summary d = Ok panel
    /\ metrics panel
       = [ ("Max Sine Value", format_f false 2 max1);
           ("Min Sine Value", format_f false 2 min1);
           ("Max Cosine Value", format_f false 2 max2);
           ("Min Cosine Value", format_f false 2 min2) ]
    /\ (min1 <=? max1)%float = true
    /\ (min2 <=? max2)%float = true.
Proof.
  intros N1 N2 F1 F2.
  destruct (np_max_nonempty _ N1) as [max1 H1].
  destruct (np_min_nonempty _ N1) as [min1 H2].
  destruct (np_max_nonempty _ N2) as [max2 H3].
  destruct (np_min_nonempty _ N2) as [min2 H4].
  eexists; exists max1, min1, max2, min2.
  split; [apply summary_closed; eassumption|]. split; [reflexivity|].
  destruct (np_max_spec _ _ H1) as [I1 B1], (np_min_spec _ _ H2) as [I2 B2],
    (np_max_spec _ _ H3) as [I3 B3], (np_min_spec _ _ H4) as [I4 B4].
  specialize (B1 F1). specialize (B3 F2).
  rewrite Forall_forall in B1, B3. auto.
Qed.

(** *** The bar chart, for every number of points *)

(** X13.  Whatever the number of points, bar [k] of a bar-chart run stands
    at sample [10 * k]: it has x position [x[10k]] and height [y1[10k]] in
    the first series, x position [x[10k] + 0.5] and height [y2[10k]] in the
    second; samples whose index is no multiple of 10 get no bar. *)
Theorem bars_stand_at_every_tenth_sample (p : Params) (s : RandomState) :
  graph_type p = "Bar Chart" ->
  1 <= num_points p ->
  signbit (noise_level p) = false ->
  exists page s' d fig xs h1 h2,
    main' p s = Ok (page, s')
    /\ generate' p s = Ok (d, s')
    /\ page_figure page = Some fig
    /\ artists (axes fig)
       = [ BarContainer xs h1 0.5 0.7 "Sine Values";
           BarContainer (map (fun u => (u + 0.5)%float) xs) h2 0.5 0.7
             "Cosine Values" ]
    /\ forall k,
         nth_error xs k = nth_error (x d) (10 * k)
         /\ nth_error h1 k = nth_error (y1 d) (10 * k)
         /\ nth_error h2 k = nth_error (y2 d) (10 * k).
Proof.
  intros Hg Hn Hs.
  destruct (bar_chart_figure np_sin np_cos RandomState legacy_gauss rk_interval p s Hg Hn Hs)
    as (page & s' & d & fig & Hm & Hd & Hf & Ha).
  exists page, s', d, fig,
    (slice_step 10 (x d)), (slice_step 10 (y1 d)), (slice_step 10 (y2 d)).
  repeat (split; [assumption|]).
  intros k. now rewrite !slice_step_nth by lia.
Qed.

(** *** What the dataset depends on *)


(** X15.  The dataset depends on the widgets through the number of points
    and the noise level only: two settings that agree on these generate,
    from the same state of the random source, the same dataset and leave
    the source in the same state, whatever their graph type, palette and
    toggles. *)
Theorem dataset_reads_points_and_noise (p p' : Params) (s : RandomState) :
  num_points p = num_points p' ->
  noise_level p = noise_level p' ->
  generate' p s = generate' p' s.
Proof. intros Hn Hl. unfold generate. now rewrite Hn, Hl. Qed.

End RunFacts.

(** ** Further results on the peak annotation *)

Lemma SFltb_of_not_leb (f g : spec_float) :
  f <> S754_nan -> g <> S754_nan -> SFleb g f = false -> SFltb f g = true.
Proof.
  unfold SFleb, SFltb.
  destruct f as [s|s| |s m e], g as [s'|s'| |s' m' e']; intros Hf Hg;
    try congruence; simpl; try destruct s; try destruct s'; simpl;
    try congruence; intros H; cmp_cases.
Qed.

Lemma SFleb_ltb_trans (f g h : spec_float) :
  SFleb f g = true -> SFltb g h = true -> SFltb f h = true.
Proof.
  unfold SFleb, SFltb.
  destruct f as [s|s| |s m e], g as [s'|s'| |s' m' e'],
    h as [s''|s''| |s'' m'' e''];
    simpl; try destruct s; try destruct s'; try destruct s''; simpl;
    try congruence; intros H1 H2; cmp_cases.
Qed.

Lemma ltb_of_not_leb (u v : float) :
  is_nan u = false -> is_nan v = false ->
  (v <=? u)%float = false -> (u <? v)%float = true.
Proof.
  rewrite FloatAxioms.leb_spec, FloatAxioms.ltb_spec. intros Hu Hv.
  apply SFltb_of_not_leb; now apply is_nan_SF.
Qed.

Lemma leb_ltb_trans (u v w : float) :
  (u <=? v)%float = true -> (v <? w)%float = true -> (u <? w)%float = true.
Proof.
  rewrite FloatAxioms.leb_spec, !FloatAxioms.ltb_spec. apply SFleb_ltb_trans.
Qed.

Lemma ltb_leb (u v : float) : (u <? v)%float = true -> (u <=? v)%float = true.
Proof.
  rewrite FloatAxioms.leb_spec, FloatAxioms.ltb_spec. unfold SFltb, SFleb.
  now destruct (SFcompare (Prim2SF u) (Prim2SF v)) as [[| |]|].
Qed.

(** The scan of [np.argmax] stops on the first maximal element: every
    element before the index it returns is strictly below the one there. *)
Lemma argmax_scan_first (t pre : array) (mp : float) (max_ind : nat) :
  no_nan (pre ++ t)%list ->
  max_ind < List.length pre ->
  nth_error (pre ++ t)%list max_ind = Some mp ->
  (forall j v, j < max_ind ->
     nth_error (pre ++ t)%list j = Some v -> (v <? mp)%float = true) ->
  (forall j v, j < List.length pre ->
     nth_error (pre ++ t)%list j = Some v -> (v <=? mp)%float = true) ->
  exists m,
    nth_error (pre ++ t)%list (argmax_scan t (List.length pre) mp max_ind)
    = Some m
    /\ forall j v, j < argmax_scan t (List.length pre) mp max_ind ->
         nth_error (pre ++ t)%list j = Some v -> (v <? m)%float = true.
Proof.
  revert pre mp max_ind.
  induction t as [|v t IH]; intros pre mp max_ind Hnan Hlt Hmp Hbefore Hall;
    simpl.
  - exists mp. split; assumption.
  - assert (Hv : nth_error (pre ++ v :: t)%list (List.length pre) = Some v).
    { rewrite nth_error_app2 by lia. now rewrite Nat.sub_diag. }
    assert (Happ : (pre ++ v :: t = (pre ++ [v]) ++ t)%list)
      by now rewrite <- app_assoc.
    assert (Hlen : S (List.length pre) = List.length (pre ++ [v])%list)
      by (rewrite length_app; simpl; lia).
    assert (Nv : is_nan v = false).
    { unfold no_nan in Hnan. rewrite Forall_forall in Hnan.
      apply Hnan. eapply nth_error_In; eassumption. }
    assert (Nmp : is_nan mp = false).
    { unfold no_nan in Hnan. rewrite Forall_forall in Hnan.
      apply Hnan. eapply nth_error_In; eassumption. }
    destruct (v <=? mp)%float eqn:E; simpl.
    + rewrite Happ, Hlen. apply IH; rewrite <- ?Happ, <- ?Hlen; auto.
      intros j u Hj Hu.
      destruct (Nat.eq_dec j (List.length pre)) as [->|Hne].
      * rewrite Hv in Hu. now inversion Hu; subst.
      * apply (Hall j); [lia | assumption].
    + rewrite Nv.
      assert (Hup : (mp <? v)%float = true) by now apply ltb_of_not_leb.
      rewrite Happ, Hlen. apply IH; rewrite <- ?Happ, <- ?Hlen; auto.
      * intros j u Hj Hu. apply (leb_ltb_trans u mp v); [|assumption].
        now apply (Hall j).
      * intros j u Hj Hu.
        destruct (Nat.eq_dec j (List.length pre)) as [->|Hne].
        -- rewrite Hv in Hu. inversion Hu; subst. now apply leb_refl.
        -- apply ltb_leb, (leb_ltb_trans u mp v); [|assumption].
           apply (Hall j); [lia | assumption].
Qed.

Lemma np_argmax_first (a : array) (k : nat) :
  no_nan a -> np_argmax a = Ok k ->
  forall j v m, j < k ->
    nth_error a j = Some v -> nth_error a k = Some m -> (v <? m)%float = true.
Proof.
  destruct a as [|h t]; [discriminate|]. intros Hnan H. simpl in H.
  assert (Nh : is_nan h = false) by now inversion Hnan.
  rewrite Nh in H. inversion H; subst k; clear H.
  destruct (argmax_scan_first t [h] h 0) as (m' & Hm' & Hfirst).
  - exact Hnan.
  - simpl. lia.
  - reflexivity.
  - intros j v Hj. lia.
  - intros j v Hj Hv. simpl in Hj. assert (j = 0) by lia. subst j.
    simpl in Hv. inversion Hv; subst. now apply leb_refl.
  - intros j v m Hj Hv Hm.
    change (h :: t) with ([h] ++ t)%list in Hm.
    change (List.length [h]) with 1 in Hm', Hfirst.
    rewrite Hm' in Hm. inversion Hm; subst m'. now apply (Hfirst j).
Qed.

(** X16.  When y1 attains its maximum more than once, the peak annotation
    of a scatter plot marks the first of these samples: it points at
    [(x[k], y1[k])] where every sample of y1 is at most [y1[k]] and every
    sample before index [k] is strictly below it (for a dataset whose y1
    holds no NaN and is as long as x). *)
Theorem peak_annotation_marks_first_peak (d : Dataset) :
  y1 d <> [] -> List.length (x d) = List.length (y1 d) -> no_nan (y1 d) ->
  exists k xk m,
    peak_annotation d
    = Ok (Annotation "Peak Value" (xk, m)
            ((xk + 1)%float, (m + 0.5)%float) "black" 0.05)
    /\ nth_error (x d) k = Some xk /\ nth_error (y1 d) k = Some m
    /\ Forall (fun v => (v <=? m)%float = true) (y1 d)
    /\ forall j v, j < k ->
         nth_error (y1 d) j = Some v -> (v <? m)%float = true.
Proof.
  intros Hne Hlen Hnan.
  destruct (peak_annotation_ok d Hne Hlen)
    as (k & xk & m & Hk & Hmax & Hxk & Hyk & Ha).
  exists k, xk, m. repeat (split; [assumption|]).
  split.
  - now apply (np_max_spec (y1 d) m Hmax).
  - intros j v Hj Hv. now apply (np_argmax_first (y1 d) k Hnan Hk j v m).
Qed.

(** ** Further results on the formatting of values *)

Lemma string_of_uint_digits (u : Decimal.uint) :
  Forall is_digit (list_ascii_of_string (NilEmpty.string_of_uint u)).
Proof.
  induction u; simpl; constructor; try assumption;
    unfold is_digit; vm_compute; discriminate.
Qed.

Lemma digits_of_digits (n : Z) : Forall is_digit (digits_of n).
Proof.
  unfold digits_of, NilZero.string_of_uint.
  destruct (N.to_uint (Z.to_N n)) eqn:E;
    try (rewrite <- E; apply string_of_uint_digits).
  repeat constructor. unfold is_digit; vm_compute; discriminate.
Qed.

Lemma pad_zeros_digits (width : nat) (ds : list ascii) :
  Forall is_digit ds -> Forall is_digit (pad_zeros width ds).
Proof.
  intros H. unfold pad_zeros. apply Forall_app. split; [|assumption].
  apply Forall_forall. intros c Hc. apply repeat_spec in Hc. subst c.
  unfold is_digit; vm_compute; discriminate.
Qed.

Lemma pad_zeros_length (width : nat) (ds : list ascii) :
  width <= List.length (pad_zeros width ds).
Proof. unfold pad_zeros. rewrite length_app, repeat_length. lia. Qed.

Lemma fixed_digits_shape (prec : nat) (n : Z) :
  1 <= prec ->
  exists ip fp,
    fixed_digits false prec n
    = string_of_list_ascii ip ++ "." ++ string_of_list_ascii fp
    /\ 1 <= List.length ip /\ List.length fp = prec
    /\ Forall is_digit ip /\ Forall is_digit fp.
Proof.
  intros Hp. unfold fixed_digits.
  set (ds := pad_zeros (S prec) (digits_of n)).
  assert (Hlen : S prec <= List.length ds) by apply pad_zeros_length.
  assert (Hdig : Forall is_digit ds)
    by apply pad_zeros_digits, digits_of_digits.
  exists (firstn (List.length ds - prec) ds), (skipn (List.length ds - prec) ds).
  rewrite <- (firstn_skipn (List.length ds - prec) ds) in Hdig.
  apply Forall_app in Hdig. destruct Hdig as [H1 H2].
  repeat split; auto.
  - destruct prec; [lia | reflexivity].
  - rewrite length_firstn. lia.
  - rewrite length_skipn. lia.
Qed.

(** X17.  A finite value is shown by [format(v, ".Nf")] (N at least 1; the
    metrics use N = 2) as an optional minus sign, one or more integer
    digits, a point and exactly N decimal digits. *)
Theorem format_f_shape (prec : nat) (v : float) :
  1 <= prec -> is_finite v = true ->
  exists sign ip fp,
    format_f false prec v
    = sign ++ string_of_list_ascii ip ++ "." ++ string_of_list_ascii fp
    /\ (sign = "" \/ sign = "-")
    /\ 1 <= List.length ip /\ List.length fp = prec
    /\ Forall is_digit ip /\ Forall is_digit fp.
Proof.
  intros Hp Hfin. apply is_finite_SF in Hfin. unfold format_f.
  destruct (Prim2SF v) as [sg|sg| |sg m e]; try contradiction.
  - destruct (fixed_digits_shape prec 0 Hp) as (ip & fp & E & H).
    exists (if sg then "-" else ""), ip, fp. rewrite E.
    split; [reflexivity|]. split; [destruct sg; auto | exact H].
  - destruct (fixed_digits_shape prec (scaled prec m e) Hp)
      as (ip & fp & E & H).
    exists (if sg then "-" else ""), ip, fp. rewrite E.
    split; [reflexivity|]. split; [destruct sg; auto | exact H].
Qed.

(** ** The further results at concrete inputs *)

Lemma valid_run_completes_witness :
  sidebar_ok default_params = true
  /\ exists page s' fig,
       Instance.run default_params 0 = Ok (page, s')
       /\ List.length page = 5
       /\ page_figure page = Some fig
       /\ List.length (page_metrics page) = 4
       /\ List.length (page_dataframes page) = 1.
Proof.
  split; [reflexivity|].
  apply (valid_run_completes Instance.sin Instance.cos Instance.RandomState
           Instance.legacy_gauss Instance.rk_interval default_params 0).
  reflexivity.
Defined.




Lemma line_plot_figure_witness :
  exists page s' d fig,
    Instance.run default_params 0 = Ok (page, s')
    /\ Instance.dataset default_params 0 = Ok (d, s')
    /\ page_figure page = Some fig
    /\ artists (axes fig)
       = [ Line2D (x d) (y1 d) "Sine Wave" 2.5 (Some "o") (Some 5)
             (Some 6%float) None;
           Line2D (x d) (y2 d) "Cosine Wave" 2.5 None None None (Some "--") ]
    /\ List.length (x d) = 100
    /\ List.length (y1 d) = 100
    /\ List.length (y2 d) = 100
    /\ colorbar fig = None.
Proof.
  apply (line_plot_figure Instance.sin Instance.cos Instance.RandomState
           Instance.legacy_gauss Instance.rk_interval default_params 0).
  - reflexivity.
  - simpl. lia.
  - reflexivity.
Defined.

Lemma area_chart_figure_witness :
  exists page s' d fig,
    Instance.run (mkParams "Area Chart" "muted" true true true 50 0.2) 0
    = Ok (page, s')
    /\ Instance.dataset (mkParams "Area Chart" "muted" true true true 50 0.2) 0
       = Ok (d, s')
    /\ page_figure page = Some fig
    /\ artists (axes fig)
       = [ FillBetween (x d) (y1 d) 0.4 "Sine Wave";
           FillBetween (x d) (y2 d) 0.4 "Cosine Wave" ]
    /\ List.length (x d) = 50
    /\ List.length (y1 d) = 50
    /\ List.length (y2 d) = 50
    /\ colorbar fig = None.
Proof.
  apply (area_chart_figure Instance.sin Instance.cos Instance.RandomState
           Instance.legacy_gauss Instance.rk_interval
           (mkParams "Area Chart" "muted" true true true 50 0.2) 0).
  - reflexivity.
  - simpl. lia.
  - reflexivity.
Defined.

Lemma unlisted_graph_type_draws_nothing_witness :
  exists page s' fig,
    Instance.run (mkParams "Pie Chart" "deep" true true true 100 0.1) 0
    = Ok (page, s')
    /\ page_figure page = Some fig
    /\ artists (axes fig) = []
    /\ colorbar fig = None
    /\ title (axes fig) = "Beautiful Pie Chart".
Proof.
  apply (unlisted_graph_type_draws_nothing Instance.sin Instance.cos
           Instance.RandomState Instance.legacy_gauss Instance.rk_interval
           (mkParams "Pie Chart" "deep" true true true 100 0.1) 0).
  - reflexivity.
  - simpl. lia.
  - reflexivity.
Defined.

Lemma colorbar_only_for_scatter_witness :
  exists page s' fig,
    Instance.run (mkParams "Bar Chart" "deep" true true true 100 0.1) 0
    = Ok (page, s')
    /\ page_figure page = Some fig
    /\ (colorbar fig <> None <-> "Bar Chart" = "Scatter Plot").
Proof.
  apply (colorbar_only_for_scatter Instance.sin Instance.cos
           Instance.RandomState Instance.legacy_gauss Instance.rk_interval
           (mkParams "Bar Chart" "deep" true true true 100 0.1) 0).
  - simpl. lia.
  - reflexivity.
Defined.


Lemma figure_style_witness :
  exists page s' fig,
    Instance.run (mkParams "Line Plot" "pastel" false true true 100 0.1) 0
    = Ok (page, s')
    /\ page_figure page = Some fig
    /\ figsize fig = (10, 6)
    /\ rc fig
       = {| rc_style := "white"; rc_axes_grid := false;
            rc_palette := "pastel"; rc_font_size := 12;
            rc_axes_labelsize := 14; rc_axes_titlesize := 16 |}.
Proof.
  apply (figure_style Instance.sin Instance.cos Instance.RandomState
           Instance.legacy_gauss Instance.rk_interval
           (mkParams "Line Plot" "pastel" false true true 100 0.1) 0).
  - simpl. lia.
  - reflexivity.
Defined.

Lemma preview_table_witness :
  exists page s' d cx c1 c2,
    Instance.run default_params 0 = Ok (page, s')
    /\ Instance.dataset default_params 0 = Ok (d, s')
    /\ page_dataframes page
       = [ [ ("X Values", cx); ("Sine Values", c1); ("Cosine Values", c2) ] ]
    /\ List.length cx = 5 /\ List.length c1 = 5 /\ List.length c2 = 5
    /\ forall i, i < 5 ->
         nth_error cx i = nth_error (x d) i
         /\ nth_error c1 i = nth_error (y1 d) i
         /\ nth_error c2 i = nth_error (y2 d) i.
Proof.
  apply (preview_table Instance.sin Instance.cos Instance.RandomState
           Instance.legacy_gauss Instance.rk_interval default_params 0).
  - simpl. lia.
  - reflexivity.
Defined.

Lemma summary_min_below_max_witness :
  exists panel max1 min1 max2 min2,
    summary {| x := [0; 1; 2]%float;
               y1 := [0; 0.84; 0.91; 0.14; -0.76]%float;
               y2 := [1; 0.54; -0.42]%float;
               categories := [] |}
    = Ok panel
    /\ metrics panel
       = [ ("Max Sine Value", format_f false 2 max1);
           ("Min Sine Value", format_f false 2 min1);
           ("Max Cosine Value", format_f false 2 max2);
           ("Min Cosine Value", format_f false 2 min2) ]
    /\ (min1 <=? max1)%float = true
    /\ (min2 <=? max2)%float = true.
Proof.
  apply (summary_min_below_max
           {| x := [0; 1; 2]%float;
              y1 := [0; 0.84; 0.91; 0.14; -0.76]%float;
              y2 := [1; 0.54; -0.42]%float;
              categories := [] |}).
  - discriminate.
  - discriminate.
  - repeat constructor.
  - repeat constructor.
Defined.

Lemma bars_stand_at_every_tenth_sample_witness :
  exists page s' d fig xs h1 h2,
    Instance.run (mkParams "Bar Chart" "deep" true true true 37 0.1) 0
    = Ok (page, s')
    /\ Instance.dataset (mkParams "Bar Chart" "deep" true true true 37 0.1) 0
       = Ok (d, s')
    /\ page_figure page = Some fig
    /\ artists (axes fig)
       = [ BarContainer xs h1 0.5 0.7 "Sine Values";
           BarContainer (map (fun u => (u + 0.5)%float) xs) h2 0.5 0.7
             "Cosine Values" ]
    /\ forall k,
         nth_error xs k = nth_error (x d) (10 * k)
         /\ nth_error h1 k = nth_error (y1 d) (10 * k)
         /\ nth_error h2 k = nth_error (y2 d) (10 * k).
Proof.
  apply (bars_stand_at_every_tenth_sample Instance.sin Instance.cos
           Instance.RandomState Instance.legacy_gauss Instance.rk_interval
           (mkParams "Bar Chart" "deep" true true true 37 0.1) 0).
  - reflexivity.
  - simpl. lia.
  - reflexivity.
Defined.


Lemma dataset_reads_points_and_noise_witness :
  Instance.dataset default_params 7
  = Instance.dataset (mkParams "Bar Chart" "dark" false false false 100 0.1) 7.
Proof.
  apply (dataset_reads_points_and_noise Instance.sin Instance.cos
           Instance.RandomState Instance.legacy_gauss Instance.rk_interval
           default_params
           (mkParams "Bar Chart" "dark" false false false 100 0.1) 7);
    reflexivity.
Defined.

Lemma peak_annotation_marks_first_peak_witness :
  exists k xk m,
    peak_annotation {| x := [0; 1; 2; 3]%float;
                       y1 := [0.5; 0.9; 0.9; 0.1]%float;
                       y2 := [1; 1; 1; 1]%float;
                       categories := [] |}
    = Ok (Annotation "Peak Value" (xk, m)
            ((xk + 1)%float, (m + 0.5)%float) "black" 0.05)
    /\ nth_error [0; 1; 2; 3]%float k = Some xk
    /\ nth_error [0.5; 0.9; 0.9; 0.1]%float k = Some m
    /\ Forall (fun v => (v <=? m)%float = true) [0.5; 0.9; 0.9; 0.1]%float
    /\ forall j v, j < k ->
         nth_error [0.5; 0.9; 0.9; 0.1]%float j = Some v ->
         (v <? m)%float = true.
Proof.
  apply (peak_annotation_marks_first_peak
           {| x := [0; 1; 2; 3]%float;
              y1 := [0.5; 0.9; 0.9; 0.1]%float;
              y2 := [1; 1; 1; 1]%float;
              categories := [] |}).
  - discriminate.
  - reflexivity.
  - repeat constructor.
Defined.

Lemma format_f_shape_witness :
  exists sign ip fp,
    format_f false 2 0.91
    = sign ++ string_of_list_ascii ip ++ "." ++ string_of_list_ascii fp
    /\ (sign = "" \/ sign = "-")
    /\ 1 <= List.length ip /\ List.length fp = 2
    /\ Forall is_digit ip /\ Forall is_digit fp.
Proof.
  apply (format_f_shape 2 0.91); [lia | reflexivity].
Defined.

(** ** Further results on the sample grid *)

Lemma set_last_nth (a : array) (v : float) :
  a <> [] -> nth_error (set_last a v) (List.length a - 1) = Some v.
Proof.
  induction a as [|h t IH]; [congruence|]. intros _.
  destruct t as [|h' t']; [reflexivity|].
  change (set_last (h :: h' :: t') v) with (h :: set_last (h' :: t') v).
  replace (List.length (h :: h' :: t') - 1)
    with (S (List.length (h' :: t') - 1)) by (simpl; lia).
  simpl nth_error. apply IH. discriminate.
Qed.

Lemma linspace_last (start stop : float) (num : nat) :
  2 <= num -> nth_error (linspace start stop num) (num - 1) = Some stop.
Proof.
  intros H. unfold linspace.
  destruct (1 <? num) eqn:E; [|apply Nat.ltb_ge in E; lia].
  set (y := map (fun v => (v + start)%float) _).
  assert (Hlen : List.length y = num).
  { unfold y. destruct (0 <? num - 1); try destruct (_ =? 0)%float;
      now rewrite !length_map, length_seq. }
  replace (num - 1) with (List.length y - 1) by lia.
  apply set_last_nth. intros Hnil. rewrite Hnil in Hlen. simpl in Hlen. lia.
Qed.

(** X18.  For every number of points from 2 on, not only those of the
    slider, the last sample of x is exactly 10: [np.linspace] overwrites
    the last computed sample with the stop value. *)
Theorem last_sample_is_ten
    (np_sin np_cos : float -> float) (RandomState : Type)
    (legacy_gauss : RandomState -> float * RandomState)
    (rk_interval : nat -> RandomState -> nat * RandomState)
    (p : Params) (s : RandomState) :
  2 <= num_points p ->
  signbit (noise_level p) = false ->
  exists d s',
    generate np_sin np_cos RandomState legacy_gauss rk_interval p s
    = Ok (d, s')
    /\ nth_error (x d) (num_points p - 1) = Some 10%float.
Proof.
  intros Hn Hs. eexists; eexists. split.
  - apply generate_closed. rewrite Hs. apply andb_false_r.
  - simpl. now apply linspace_last.
Qed.

Lemma last_sample_is_ten_witness :
  exists d s',
    Instance.dataset (mkParams "Line Plot" "deep" true true true 1000 0.1) 0
    = Ok (d, s')
    /\ nth_error (x d) 999 = Some 10%float.
Proof.
  apply (last_sample_is_ten Instance.sin Instance.cos Instance.RandomState
           Instance.legacy_gauss Instance.rk_interval
           (mkParams "Line Plot" "deep" true true true 1000 0.1) 0).
  - simpl. lia.
  - reflexivity.
Defined.
